(** * Vial shot redistribution: a shallow embedding of
      [fix_vial_shot_distribution.py]

    The script scans a DynamoDB table for injection records, recomputes the
    vial every injection belongs to from its timestamp, and rewrites the
    [vialId] attribute of the records that disagree.  This file embeds the
    functions of the script as Rocq functions over a small universe of
    Python values and states the properties of the reconciliation cycle as
    theorems about them.

    Conventions.
    - A Python [str] is a [string]; comparison is [String.compare], the
      lexicographic order on character codes that Python uses, and the
      slice [s[:n]] is [substring 0 n s].
    - A Python [dict] with string keys is a [gmap string _]; a dict whose
      insertion order is observed (it is iterated or sorted) is an
      association list.
    - A DynamoDB attribute value, the one-key dict [{tag: payload}] that
      boto3 exchanges, is a value of the tagged union [attr].
    - A call that may raise returns a [result]; the exception is carried by
      [Raise], and code following the call is sequenced with [do x <- c; k].
      Code that reads or writes the table runs in the monad [M] over the
      [world]: the table, standard output and the log of update requests.
    - The builtins [float()], [str()] and the arithmetic on floats, and
      [repr()] on a tagged dict, are not part of the script; they are the
      fields of [PyBuiltins]. *)

From Stdlib Require Import ZArith String Ascii List DecimalString.
From stdpp Require Import gmap strings list fin_maps.

#[local] Set Warnings "-register-all".
#[local] Open Scope string_scope.

(** ** Exceptions and results *)

Inductive exn : Type :=
  | TypeError
  | ValueError
  | KeyError
  | OverflowError
  | ClientError.

Inductive result (A : Type) : Type :=
  | Ok (a : A)
  | Raise (e : exn).

Arguments Ok {A} a.
Arguments Raise {A} e.

Definition bind {A B : Type} (c : result A) (k : A -> result B) : result B :=
  match c with
  | Ok a => k a
  | Raise e => Raise e
  end.

Notation "'do' x <- c ; k" := (bind c (fun x => k))
  (at level 10, x name, c at level 100, k at level 200).

Definition is_ok {A : Type} (c : result A) : bool :=
  match c with Ok _ => true | Raise _ => false end.

(** ** DynamoDB attribute values *)

(** The wire format of one attribute: the type tag and its payload. *)
Inductive attr : Type :=
  | AS (s : string)
  | AN (n : string)
  | ANULL (b : bool)
  | ABOOL (b : bool)
  | AB (b : string)
  | ASS (l : list string)
  | ANS (l : list string)
  | ABS (l : list string)
  | AM (m : gmap string attr)
  | AL (l : list attr).

(** The tag, the single key of the dict. *)
Definition attr_tag (a : attr) : string :=
  match a with
  | AS _ => "S"
  | AN _ => "N"
  | ANULL _ => "NULL"
  | ABOOL _ => "BOOL"
  | AB _ => "B"
  | ASS _ => "SS"
  | ANS _ => "NS"
  | ABS _ => "BS"
  | AM _ => "M"
  | AL _ => "L"
  end.

(** ** Python values *)

(** The values the script handles: what [parse_dynamo_value] can return
    (a string, a float, [None], a bool or the tagged dict itself) and the
    [int] literals of the script.  [F] is the type of Python floats. *)
Inductive pyval (F : Type) : Type :=
  | PNone
  | PBool (b : bool)
  | PInt (z : Z)
  | PFloat (f : F)
  | PStr (s : string)
  | PRaw (a : attr).

Arguments PNone {F}.
Arguments PBool {F} b.
Arguments PInt {F} z.
Arguments PFloat {F} f.
Arguments PStr {F} s.
Arguments PRaw {F} a.

(** The builtins the script calls on floats and on tagged dicts. *)
Class PyBuiltins : Type := {
  float : Type;
  (** [float(s)] on a string; [None] when it raises [ValueError]. *)
  float_of_string : string -> option float;
  (** [float(n)] on an int; [None] when it raises [OverflowError]. *)
  float_of_Z : Z -> option float;
  (** [str(x)] on a float. *)
  float_str : float -> string;
  (** [bool(x)] on a float. *)
  float_bool : float -> bool;
  (** [x + y] on floats. *)
  float_add : float -> float -> float;
  (** [x == y] on floats. *)
  float_eqb : float -> float -> bool;
  (** [x == n] for a float and an int. *)
  float_eq_Z : float -> Z -> bool;
  (** [repr(d)] on a tagged dict. *)
  attr_repr : attr -> string
}.

Abbreviation value := (pyval float).
Abbreviation dict := (gmap string (pyval float)).
Abbreviation item := (gmap string attr).

Section Script.

Context `{PyBuiltins}.

(** [bool(v)]: the truth value tested by [if], [not] and [or]. *)
Definition py_truthy (v : value) : bool :=
  match v with
  | PNone => false
  | PBool b => b
  | PInt z => negb (Z.eqb z 0)
  | PFloat f => float_bool f
  | PStr s => negb (String.eqb s "")
  | PRaw _ => true
  end.

(** [a or b]. *)
Definition py_or (a b : value) : value :=
  if py_truthy a then a else b.

(** [str(v)]. *)
Definition py_str (v : value) : string :=
  match v with
  | PNone => "None"
  | PBool true => "True"
  | PBool false => "False"
  | PInt z => NilZero.string_of_int (Z.to_int z)
  | PFloat f => float_str f
  | PStr s => s
  | PRaw a => attr_repr a
  end.

(** [float(v)]. *)
Definition py_float (v : value) : result float :=
  match v with
  | PStr s =>
      match float_of_string s with
      | Some x => Ok x
      | None => Raise ValueError
      end
  | PFloat f => Ok f
  | PBool b =>
      match float_of_Z (Z.b2z b) with
      | Some x => Ok x
      | None => Raise OverflowError
      end
  | PInt z =>
      match float_of_Z z with
      | Some x => Ok x
      | None => Raise OverflowError
      end
  | PNone | PRaw _ => Raise TypeError
  end.

(** [v[:n]]: a string can be sliced; a number, a bool or [None] is not
    subscriptable and a dict rejects the slice as a key ([TypeError] up to
    Python 3.11, where a slice is unhashable). *)
Definition py_slice_to (n : nat) (v : value) : result value :=
  match v with
  | PStr s => Ok (PStr (substring 0 n s))
  | PNone | PBool _ | PInt _ | PFloat _ | PRaw _ => Raise TypeError
  end.

(** [v < s] for a string literal [s]: only a string is ordered with it. *)
Definition py_lt_str (v : value) (s : string) : result bool :=
  match v with
  | PStr t => Ok (String.ltb t s)
  | _ => Raise TypeError
  end.

(** [v == s] for a string [s]: a value of another type is never equal. *)
Definition py_eq_str (v : value) (s : string) : bool :=
  match v with
  | PStr t => String.eqb t s
  | _ => false
  end.

(** [needle in hay] on strings. *)
Fixpoint str_contains (needle hay : string) : bool :=
  String.prefix needle hay ||
  match hay with
  | EmptyString => false
  | String _ rest => str_contains needle rest
  end.

(** [d[k]]. *)
Definition py_getitem (d : dict) (k : string) : result value :=
  match d !! k with
  | Some v => Ok v
  | None => Raise KeyError
  end.

(** [d.get(k, dflt)]; [d.get(k)] is [py_get d k PNone]. *)
Definition py_get (d : dict) (k : string) (dflt : value) : value :=
  default dflt (d !! k).

(** [v is None]. *)
Definition is_none (v : value) : bool :=
  match v with PNone => true | _ => false end.

(** [isinstance(v, str)]. *)
Definition isinstance_str (v : value) : bool :=
  match v with PStr _ => true | _ => false end.

(** [isinstance(v, bool)]. *)
Definition isinstance_bool (v : value) : bool :=
  match v with PBool _ => true | _ => false end.

(** [isinstance(v, (int, float, Decimal))]; [bool] is a subclass of
    [int].  No [Decimal] is ever built by the script. *)
Definition isinstance_number (v : value) : bool :=
  match v with PInt _ | PFloat _ | PBool _ => true | _ => false end.

(** ** Marshalling *)

(** [parse_dynamo_value]: the tests ['S' in value], ['N' in value], ... are
    tests on the tag. *)
Definition parse_dynamo_value (v : attr) : result value :=
  match v with
  | AS s => Ok (PStr s)
  | AN n => do x <- py_float (PStr n); Ok (PFloat x)
  | ANULL _ => Ok PNone
  | ABOOL b => Ok (PBool b)
  | _ => Ok (PRaw v)
  end.

(** [format_dynamo_value]: the chain of tests in the order of the source.
    Under ['S'] a string is its own [str()]; under ['BOOL'] a bool is its
    own truth value. *)
Definition format_dynamo_value (v : value) : attr :=
  if is_none v then ANULL true
  else if isinstance_str v then AS (py_str v)
  else if isinstance_number v then AN (py_str v)
  else if isinstance_bool v then ABOOL (py_truthy v)
  else AS (py_str v).

(** ** Assignment policy *)

Definition DRY_STOCK_VIALS : list string :=
  ["vial_20241029_2"; "vial_20241029_3"; "vial_20241029_4"].

(** [get_correct_vial_for_date]: [None] or the vial identifier. *)
Definition get_correct_vial_for_date (date_str : value)
  : result (option string) :=
  if negb (py_truthy date_str) then Ok None
  else
    do date_prefix <- py_slice_to 10 date_str;
    do lt1 <- py_lt_str date_prefix "2025-09-13";
    if lt1 then Ok (Some "vial_20240805_1")
    else
      do lt2 <- py_lt_str date_prefix "2025-10-29";
      if lt2 then Ok (Some "vial_20240805_2")
      else Ok (Some "vial_20241029_1").

(** ** Reconciliation planner *)

(** A change record, the dict appended to [changes]. *)
Record change : Type := Change {
  ch_PK : value;
  ch_SK : value;
  ch_timestamp : value;
  ch_doseMg : value;
  ch_current_vial : value;
  ch_correct_vial : string
}.

(** A line of standard output.  The fields are the values interpolated
    into the text; the text around them is fixed. *)
Inductive line : Type :=
  | LBanner (title : string)
  | LFound (kind : string) (n : nat)
  | LCurrentVial (vial_id : value) (shots : nat) (total_mg : value)
      (warning : bool)
  | LCurrentShot (date dose : value)
  | LCannotDetermine (timestamp : value)
  | LChange (date dose current : value) (correct : string)
  | LNoChanges
  | LTotalChanges (n : nat)
  | LExpected (vial : option string) (count : Z) (mg : value)
  | LDryRun
  | LApplying
  | LUpdating (sk : value)
  | LUpdated (correct : string)
  | LFail (e : exn)
  | LDone (success_count error_count : nat).

(** [any(ds in str(current_vial) for ds in DRY_STOCK_VIALS)]. *)
Definition mentions_dry_stock (current_vial : value) : bool :=
  existsb (fun ds => str_contains ds (py_str current_vial)) DRY_STOCK_VIALS.

(** The [needs_change] flag computed by the [if]/[elif] chain of the
    planner for a current association and the policy's vial. *)
Definition needs_change (current_vial : value) (correct_vial : string) : bool :=
  if is_none current_vial then true
  else if mentions_dry_stock current_vial then true
  else if negb (py_eq_str current_vial correct_vial) then true
  else false.

(** [not correct_vial] on the result of the policy. *)
Definition vial_falsy (correct_vial : option string) : bool :=
  match correct_vial with
  | None => true
  | Some v => String.eqb v ""
  end.

(** One iteration of the planning loop: the change record appended, if
    any, and the lines printed.  Every [print] of the iteration comes after
    the last call that can raise, so an iteration that raises prints
    nothing. *)
Definition plan_injection (inj : dict) : result (option change * list line) :=
  let timestamp := py_get inj "timestamp" (PStr "") in
  let current_vial := py_get inj "vialId" PNone in
  do correct_vial <- get_correct_vial_for_date timestamp;
  if vial_falsy correct_vial then Ok (None, [LCannotDetermine timestamp])
  else
    let correct := default "" correct_vial in
    if needs_change current_vial correct then
      do pk <- py_getitem inj "PK";
      do sk <- py_getitem inj "SK";
      let c := {| ch_PK := pk; ch_SK := sk; ch_timestamp := timestamp;
                  ch_doseMg := py_get inj "doseMg" PNone;
                  ch_current_vial := py_or current_vial (PStr "NULL");
                  ch_correct_vial := correct |} in
      do date <- (if py_truthy timestamp then py_slice_to 10 timestamp
                  else Ok (PStr "unknown"));
      Ok (Some c, [LChange date (py_get inj "doseMg" PNone)
                           (py_or current_vial (PStr "NULL")) correct])
    else Ok (None, []).

(** The planning loop: the change-set in input order and the lines printed,
    up to the first iteration that raises. *)
Fixpoint plan_changes (injections : list dict)
  : list line * result (list change) :=
  match injections with
  | [] => ([], Ok [])
  | inj :: rest =>
    match plan_injection inj with
    | Raise e => ([], Raise e)
    | Ok (oc, out) =>
      let '(out', r) := plan_changes rest in
      ((out ++ out')%list,
       do cs <- r;
       Ok (match oc with Some c => c :: cs | None => cs end))
    end
  end.

(** ** The record store *)

(** [parse_item]: the dict comprehension over [item.items()]. *)
Fixpoint parse_entries (l : list (string * attr))
  : result (list (string * value)) :=
  match l with
  | [] => Ok []
  | (k, a) :: rest =>
    do v <- parse_dynamo_value a;
    do vs <- parse_entries rest;
    Ok ((k, v) :: vs)
  end.

Definition parse_item (it : item) : result dict :=
  do l <- parse_entries (map_to_list it);
  Ok (list_to_map l).

(** [[f(x) for x in l]] for an [f] that may raise. *)
Fixpoint map_result {A B : Type} (f : A -> result B) (l : list A)
  : result (list B) :=
  match l with
  | [] => Ok []
  | x :: rest =>
    do y <- f x;
    do ys <- map_result f rest;
    Ok (y :: ys)
  end.

(** The arguments of one [update_item] call: the two key attributes and the
    two values of the [SET] expression. *)
Record request : Type := Request {
  rq_PK : attr;
  rq_SK : attr;
  rq_vialId : attr;
  rq_updatedAt : attr
}.

(** What the script acts on.  The table has the string attributes [PK] and
    [SK] as its primary key, so it is a map from the pair to the other
    attributes of the item.  [w_update_fails n] and [w_scan_fails n] tell
    whether the [n]-th call of [update_item] and of [scan] raises,
    [w_clock n] is [datetime.utcnow().isoformat()] at the [n]-th update,
    and a [scan] response covers [S w_page] items of the table. *)
Record world : Type := World {
  w_table : gmap (string * string) item;
  w_stdout : list line;
  w_updates : list request;
  w_scans : nat;
  w_update_fails : nat -> bool;
  w_scan_fails : nat -> bool;
  w_clock : nat -> string;
  w_page : nat
}.

Definition set_table (t : gmap (string * string) item) (w : world) : world :=
  World t (w_stdout w) (w_updates w) (w_scans w) (w_update_fails w)
        (w_scan_fails w) (w_clock w) (w_page w).

Definition set_stdout (o : list line) (w : world) : world :=
  World (w_table w) o (w_updates w) (w_scans w) (w_update_fails w)
        (w_scan_fails w) (w_clock w) (w_page w).

Definition set_updates (u : list request) (w : world) : world :=
  World (w_table w) (w_stdout w) u (w_scans w) (w_update_fails w)
        (w_scan_fails w) (w_clock w) (w_page w).

Definition set_scans (n : nat) (w : world) : world :=
  World (w_table w) (w_stdout w) (w_updates w) n (w_update_fails w)
        (w_scan_fails w) (w_clock w) (w_page w).

(** Computations on the world that may raise. *)
Definition M (A : Type) : Type := world -> result A * world.

Definition retM {A : Type} (a : A) : M A := fun w => (Ok a, w).

Definition bindM {A B : Type} (c : M A) (k : A -> M B) : M B := fun w =>
  match c w with
  | (Ok a, w') => k a w'
  | (Raise e, w') => (Raise e, w')
  end.

Notation "'exec' x <- c ; k" := (bindM c (fun x => k))
  (at level 10, x name, c at level 100, k at level 200).

Definition liftM {A : Type} (r : result A) : M A := fun w => (r, w).

(** [print]. *)
Definition emit (out : list line) : M unit := fun w =>
  (Ok tt, set_stdout (w_stdout w ++ out)%list w).

(** A phase that only prints: its lines reach standard output whether or
    not it raises. *)
Definition printing {A : Type} (p : list line * result A) : M A :=
  exec u <- emit (fst p); liftM (snd p).

(** The item stored under a key, with its key attributes. *)
Definition item_of_entry (e : string * string * item) : item :=
  <["PK" := AS e.1.1]> (<["SK" := AS e.1.2]> e.2).

Definition table_items (w : world) : list item :=
  item_of_entry <$> map_to_list (w_table w).

(** The filter [entityType = :type] with [:type] bound to [{'S': kind}]. *)
Definition has_entity_type (kind : string) (it : item) : bool :=
  match it !! "entityType" with
  | Some (AS s) => String.eqb s kind
  | _ => false
  end.

(** The table cut into the stretches that successive [scan] calls cover:
    [room] items still fit in the stretch [cur] (kept reversed). *)
Fixpoint scan_pages {A : Type} (size room : nat) (cur : list A) (l : list A)
  : list (list A) :=
  match l with
  | [] => [rev cur]
  | x :: rest =>
    match room with
    | 0 => rev cur :: scan_pages size size [x] rest
    | S room' => scan_pages size room' (x :: cur) rest
    end
  end.

(** One [dynamodb.scan] call answering with the matching items of [page]. *)
Definition dynamo_scan (kind : string) (page : list item) : M (list item) :=
  fun w =>
    let w' := set_scans (S (w_scans w)) w in
    if w_scan_fails w (w_scans w) then (Raise ClientError, w')
    else (Ok (List.filter (has_entity_type kind) page), w').

(** The [while True] loop of [scan_all_items]: one iteration per response;
    the last response carries no [LastEvaluatedKey]. *)
Fixpoint scan_loop (kind : string) (pages : list (list item))
  (items : list item) : M (list item) :=
  match pages with
  | [] => retM items
  | page :: rest =>
    exec found <- dynamo_scan kind page;
    scan_loop kind rest (items ++ found)%list
  end.

Definition scan_all_items (kind : string) : M (list item) := fun w =>
  scan_loop kind (scan_pages (w_page w) (S (w_page w)) [] (table_items w)) [] w.

(** [dynamodb.update_item]: logs the request; raises when the call fails or
    the key does not fit the key schema; otherwise sets the two attributes on
    the item under the key, creating the item when there is none. *)
Definition dynamo_update_item (rq : request) : M unit := fun w =>
  let n := length (w_updates w) in
  let w' := set_updates (w_updates w ++ [rq])%list w in
  if w_update_fails w n then (Raise ClientError, w')
  else
    match rq_PK rq, rq_SK rq with
    | AS pk, AS sk =>
      let old := default ∅ (w_table w !! (pk, sk)) in
      let new := <["vialId" := rq_vialId rq]>
                   (<["updatedAt" := rq_updatedAt rq]> old) in
      (Ok tt, set_table (<[(pk, sk) := new]> (w_table w)) w')
    | _, _ => (Raise ClientError, w')
    end.

(** ** Reporting the current distribution *)

(** [a + b]; [bool] counts as [int]. *)
Definition py_add (a b : value) : result value :=
  let as_int (v : value) : option Z :=
    match v with
    | PInt z => Some z
    | PBool c => Some (Z.b2z c)
    | _ => None
    end in
  let widen (z : Z) (k : float -> value) : result value :=
    match float_of_Z z with
    | Some x => Ok (k x)
    | None => Raise OverflowError
    end in
  match a, b with
  | PStr s, PStr t => Ok (PStr (s ++ t))
  | PFloat x, PFloat y => Ok (PFloat (float_add x y))
  | PFloat x, _ =>
    match as_int b with
    | Some n => widen n (fun y => PFloat (float_add x y))
    | None => Raise TypeError
    end
  | _, PFloat y =>
    match as_int a with
    | Some n => widen n (fun x => PFloat (float_add x y))
    | None => Raise TypeError
    end
  | _, _ =>
    match as_int a, as_int b with
    | Some m, Some n => Ok (PInt (m + n))
    | _, _ => Raise TypeError
    end
  end.

(** [a == b] for two dict keys. *)
Definition py_key_eq (a b : value) : bool :=
  match a, b with
  | PNone, PNone => true
  | PStr s, PStr t => String.eqb s t
  | PFloat x, PFloat y => float_eqb x y
  | PFloat x, PInt n | PInt n, PFloat x => float_eq_Z x n
  | PFloat x, PBool c | PBool c, PFloat x => float_eq_Z x (Z.b2z c)
  | PInt m, PInt n => Z.eqb m n
  | PInt m, PBool c | PBool c, PInt m => Z.eqb m (Z.b2z c)
  | PBool c, PBool d => Bool.eqb c d
  | _, _ => false
  end.

(** A stable sort by a string key, as [sorted(l, key=...)] is when every
    key is a string. *)
Fixpoint insert_by {A : Type} (key : A -> string) (x : A) (l : list A)
  : list A :=
  match l with
  | [] => [x]
  | y :: rest =>
    if String.leb (key x) (key y) then x :: l
    else y :: insert_by key x rest
  end.

Fixpoint sort_by {A : Type} (key : A -> string) (l : list A) : list A :=
  match l with
  | [] => []
  | x :: rest => insert_by key x (sort_by key rest)
  end.

(** An entry of a list in [vial_shots]. *)
Record shot : Type := Shot {
  sh_timestamp : value;
  sh_doseMg : value;
  sh_SK : value;
  sh_PK : value
}.

(** [vial_shots], in insertion order. *)
Definition shots_by_vial : Type := list (value * list shot).

(** The body of the first loop, once [vial_id] is known to be hashable:
    the shot joins the list under an equal key or opens a new one. *)
Fixpoint add_shot (vial_id : value) (sh : shot) (vs : shots_by_vial)
  : shots_by_vial :=
  match vs with
  | [] => [(vial_id, [sh])]
  | (k, shs) :: rest =>
    if py_key_eq k vial_id then (k, (shs ++ [sh])%list) :: rest
    else (k, shs) :: add_shot vial_id sh rest
  end.

(** The first loop; a tagged dict cannot be a dict key. *)
Fixpoint group_shots (injections : list dict) (vs : shots_by_vial)
  : result shots_by_vial :=
  match injections with
  | [] => Ok vs
  | inj :: rest =>
    let vial_id := py_or (py_get inj "vialId" PNone) (PStr "NULL/unassigned") in
    match vial_id with
    | PRaw _ => Raise TypeError
    | _ =>
      group_shots rest
        (add_shot vial_id
           (Shot (py_get inj "timestamp" PNone) (py_get inj "doseMg" PNone)
                 (py_get inj "SK" PNone) (py_get inj "PK" PNone)) vs)
    end
  end.

(** [sum(s['doseMg'] or 0 for s in shots)], from the accumulator [acc]. *)
Fixpoint sum_doses (acc : value) (shots : list shot) : result value :=
  match shots with
  | [] => Ok acc
  | sh :: rest =>
    do acc' <- py_add acc (py_or (sh_doseMg sh) (PInt 0));
    sum_doses acc' rest
  end.

(** The sort key [x['timestamp'] or '']. *)
Definition shot_key (sh : shot) : value := py_or (sh_timestamp sh) (PStr "").

(** The inner loop over [sorted(shots, key=...)].  When every key is a
    string the shots are printed in key order; a truthy timestamp is then a
    string, its own [str()].  Otherwise some key is a
    number or a tagged dict and [TypeError] is raised before any shot is
    printed: by [sorted] when it has to compare that key with a string or
    with a dict, else by the slice [shot['timestamp'][:10]] of the first
    shot. *)
Definition report_shots (shots : list shot) : list line * result unit :=
  if forallb (fun sh => isinstance_str (shot_key sh)) shots then
    ((fun sh =>
        LCurrentShot
          (if py_truthy (sh_timestamp sh)
           then PStr (substring 0 10 (py_str (sh_timestamp sh)))
           else PStr "unknown")
          (sh_doseMg sh))
       <$> sort_by (fun sh => py_str (shot_key sh)) shots,
     Ok tt)
  else ([], Raise TypeError).

(** The second loop, over the groups already sorted. *)
Fixpoint report_vials (vs : shots_by_vial) : list line * result unit :=
  match vs with
  | [] => ([], Ok tt)
  | (vial_id, shots) :: rest =>
    match sum_doses (PInt 0) shots with
    | Raise e => ([], Raise e)
    | Ok total_mg =>
      let header :=
        LCurrentVial vial_id (length shots) total_mg
                     (mentions_dry_stock vial_id) in
      match report_shots shots with
      | (out, Raise e) => (header :: out, Raise e)
      | (out, Ok _) =>
        let '(out', r) := report_vials rest in
        ((header :: out) ++ out', r)%list
      end
    end
  end.

(** Lines 156 to 178 of [main]. *)
Definition report_current (injections : list dict) : list line * result unit :=
  match group_shots injections [] with
  | Raise e => ([LBanner "Current vial distribution:"], Raise e)
  | Ok vs =>
    let '(out, r) := report_vials (sort_by (fun g => py_str g.1) vs) in
    (LBanner "Current vial distribution:" :: out, r)
  end.

(** ** Expected distribution *)

(** [expected], in insertion order: vial, count and summed dose. *)
Definition distribution : Type := list (option string * (Z * value)).

(** The body of the loop for an injection of vial [vial] and dose field
    [dose]: the entry is created at [(0, 0)] when missing, then updated. *)
Fixpoint add_expected (vial : option string) (dose : value) (ex : distribution)
  : result distribution :=
  match ex with
  | [] =>
    do mg <- py_add (PInt 0) (py_or dose (PInt 0));
    Ok [(vial, (1%Z, mg))]
  | (k, (count, mg)) :: rest =>
    if bool_decide (k = vial) then
      do mg' <- py_add mg (py_or dose (PInt 0));
      Ok ((k, ((count + 1)%Z, mg')) :: rest)
    else
      do rest' <- add_expected vial dose rest;
      Ok ((k, (count, mg)) :: rest')
  end.

Fixpoint expected_loop (injections : list dict) (ex : distribution)
  : result distribution :=
  match injections with
  | [] => Ok ex
  | inj :: rest =>
    do vial <- get_correct_vial_for_date (py_get inj "timestamp" (PStr ""));
    do ex' <- add_expected vial (py_get inj "doseMg" PNone) ex;
    expected_loop rest ex'
  end.

(** [sorted(expected.items())]: the items are ordered by their keys, which
    differ; [None] is not ordered with a string, so the sort raises as soon
    as it has two keys to compare and one of them is [None]. *)
Definition sorted_expected (ex : distribution) : result distribution :=
  match ex with
  | [] | [_] => Ok ex
  | _ =>
    if forallb (fun e => bool_decide (is_Some e.1)) ex
    then Ok (sort_by (fun e => default "" e.1) ex)
    else Raise TypeError
  end.

(** Lines 224 to 240 of [main]. *)
Definition report_expected (n_changes : nat) (injections : list dict)
  : list line * result unit :=
  let head := [LTotalChanges n_changes;
               LBanner "Expected distribution after fix:"] in
  match (do ex <- expected_loop injections []; sorted_expected ex) with
  | Raise e => (head, Raise e)
  | Ok ex =>
    ((head ++ ((fun e => LExpected e.1 e.2.1 e.2.2) <$> ex))%list, Ok tt)
  end.

(** ** Apply executor *)

(** The body of the apply loop: [true] when the update went through.  The
    slice of [change['SK']] is outside the [try]. *)
Definition apply_change (c : change) : M bool :=
  exec sk <- liftM (py_slice_to 40 (ch_SK c));
  exec u <- emit [LUpdating sk];
  fun w =>
    let now := w_clock w (length (w_updates w)) in
    let rq := {| rq_PK := format_dynamo_value (ch_PK c);
                 rq_SK := format_dynamo_value (ch_SK c);
                 rq_vialId := format_dynamo_value (PStr (ch_correct_vial c));
                 rq_updatedAt := format_dynamo_value (PStr (now ++ "Z")) |} in
    match dynamo_update_item rq w with
    | (Ok _, w') => (exec u <- emit [LUpdated (ch_correct_vial c)]; retM true) w'
    | (Raise e, w') => (exec u <- emit [LFail e]; retM false) w'
    end.

(** The apply loop with its two counters. *)
Fixpoint apply_changes (changes : list change) (success_count error_count : nat)
  : M (nat * nat) :=
  match changes with
  | [] => retM (success_count, error_count)
  | c :: rest =>
    exec ok <- apply_change c;
    if ok then apply_changes rest (S success_count) error_count
    else apply_changes rest success_count (S error_count)
  end.

(** ** The run *)

(** Lines 144 to 154 of [main]: both scans; only the number of vials is
    used. *)
Definition load_records : M (list dict) :=
  exec u <- emit [LBanner "Fetching all injections..."];
  exec raw_injections <- scan_all_items "INJECTION";
  exec injections <- liftM (map_result parse_item raw_injections);
  exec u <- emit [LFound "injections" (length injections);
                  LBanner "Fetching all vials..."];
  exec raw_vials <- scan_all_items "VIAL";
  exec vials <- liftM (map_result parse_item raw_vials);
  exec u <- emit [LFound "vials" (length vials)];
  retM injections.

(** Lines 156 to 273 of [main]: report, plan, and print or apply. *)
Definition reconcile (dry_run : bool) (injections : list dict) : M unit :=
  exec u <- printing (report_current injections);
  exec u <- emit [LBanner "Changes needed:"];
  exec changes <- printing (plan_changes injections);
  match changes with
  | [] => emit [LNoChanges]
  | _ =>
    exec u <- printing (report_expected (length changes) injections);
    if dry_run then emit [LDryRun]
    else
      exec u <- emit [LApplying];
      exec counts <- apply_changes changes 0 0;
      emit [LDone counts.1 counts.2]
  end.

(** [main], from the first scan on; [dry_run] is [args.dry_run]. *)
Definition main (dry_run : bool) : M unit :=
  exec injections <- load_records;
  reconcile dry_run injections.

(** ** Timestamps the specification calls parseable *)

Definition is_digit (c : ascii) : bool :=
  (48 <=? nat_of_ascii c)%nat && (nat_of_ascii c <=? 57)%nat.

(** The date portion [YYYY-MM-DD], fixed-width and zero-padded, that the
    specification expects in the first ten characters of a timestamp.  The
    script has no such test; the predicate only serves to state what the
    script does on the strings that fail it. *)
Definition has_date_prefix (t : string) : bool :=
  match list_ascii_of_string (substring 0 10 t) with
  | [y1; y2; y3; y4; s1; m1; m2; s2; d1; d2] =>
    forallb is_digit [y1; y2; y3; y4; m1; m2; d1; d2]
    && Ascii.eqb s1 "-" && Ascii.eqb s2 "-"
  | _ => false
  end.

(** ** Vocabulary of the statements *)

Implicit Types (t : gmap (string * string) item) (k : string * string).

(** The vials the policy assigns. *)
Definition policy_vials : list string :=
  ["vial_20240805_1"; "vial_20240805_2"; "vial_20241029_1"].

(** The tags [parse_dynamo_value] knows. *)
Definition known_tags : list string := ["S"; "N"; "NULL"; "BOOL"].

(** The conditions the specification lists for [needsChange]. *)
Definition wrongly_assigned (current : value) (correct : string) : Prop :=
  current = PNone \/
  (exists d, In d DRY_STOCK_VIALS /\ current = PStr d) \/
  current <> PStr correct.

(** The request the apply loop builds for a change at time [now]. *)
Definition request_of (c : change) (now : string) : request :=
  {| rq_PK := format_dynamo_value (ch_PK c);
     rq_SK := format_dynamo_value (ch_SK c);
     rq_vialId := format_dynamo_value (PStr (ch_correct_vial c));
     rq_updatedAt := format_dynamo_value (PStr (now ++ "Z")) |}.

(** The requests of a change-set when [n] updates were issued before. *)
Fixpoint requests_of (clock : nat -> string) (n : nat) (changes : list change)
  : list request :=
  match changes with
  | [] => []
  | c :: rest => request_of c (clock n) :: requests_of clock (S n) rest
  end.

(** The key a request addresses, when it fits the key schema. *)
Definition request_key (rq : request) : option (string * string) :=
  match rq_PK rq, rq_SK rq with
  | AS pk, AS sk => Some (pk, sk)
  | _, _ => None
  end.

(** Whether the [n]-th update call, carrying [rq], goes through. *)
Definition update_ok (fails : nat -> bool) (n : nat) (rq : request) : bool :=
  negb (fails n) && bool_decide (is_Some (request_key rq)).

(** The table once [rq] has gone through. *)
Definition table_after (rq : request) (t : gmap (string * string) item)
  : gmap (string * string) item :=
  match request_key rq with
  | Some k =>
    <[k := <["vialId" := rq_vialId rq]>
             (<["updatedAt" := rq_updatedAt rq]> (default ∅ (t !! k)))]> t
  | None => t
  end.

(** The table once the requests that go through have been applied, one
    after the other. *)
Fixpoint table_after_all (fails : nat -> bool) (n : nat) (rqs : list request)
  (t : gmap (string * string) item) : gmap (string * string) item :=
  match rqs with
  | [] => t
  | rq :: rest =>
    table_after_all fails (S n) rest
      (if update_ok fails n rq then table_after rq t else t)
  end.

(** How many of the requests go through. *)
Fixpoint count_ok (fails : nat -> bool) (n : nat) (rqs : list request) : nat :=
  match rqs with
  | [] => 0
  | rq :: rest =>
    (if update_ok fails n rq then 1 else 0) + count_ok fails (S n) rest
  end.

(** The value of an attribute that parses. *)
Definition parse_total (a : attr) : value :=
  match parse_dynamo_value a with
  | Ok v => v
  | Raise _ => PNone
  end.

Definition parses (a : attr) : Prop := is_ok (parse_dynamo_value a) = true.

(** What changes between two worlds is at most the scan counter and
    standard output. *)
Definition same_store (w w' : world) : Prop :=
  w_table w' = w_table w /\ w_updates w' = w_updates w /\
  w_update_fails w' = w_update_fails w /\ w_scan_fails w' = w_scan_fails w /\
  w_clock w' = w_clock w /\ w_page w' = w_page w.

(** A computation that writes nothing to the table. *)
Definition read_only {A : Type} (c : M A) : Prop :=
  forall w, same_store w (c w).2.

(** The injections the planner is given for a table. *)
Definition table_injections (t : gmap (string * string) item)
  : result (list dict) :=
  map_result parse_item
    (List.filter (has_entity_type "INJECTION")
                 (item_of_entry <$> map_to_list t)).

(** The injection the planner sees for the item under [k]. *)
Definition entry_injection (k : string * string) (a : item) : dict :=
  parse_total <$> item_of_entry (k, a).

Definition is_injection (k : string * string) (a : item) : Prop :=
  has_entity_type "INJECTION" (item_of_entry (k, a)) = true.

(** The item under [k] is an injection that the planner moves to [v]. *)
Definition needs_fix t k (v : string) : Prop :=
  exists a,
    t !! k = Some a /\ is_injection k a /\
    get_correct_vial_for_date
      (py_get (entry_injection k a) "timestamp" (PStr "")) = Ok (Some v) /\
    needs_change (py_get (entry_injection k a) "vialId" PNone) v = true.

(** A request that fixes a stored injection. *)
Definition fixes t (rq : request) : Prop :=
  exists k v s,
    request_key rq = Some k /\ rq_vialId rq = AS v /\
    rq_updatedAt rq = AS s /\ needs_fix t k v.

(** The item once its two attributes are set. *)
Definition fixed_item (v s : string) (a : item) : item :=
  <["vialId" := AS v]> (<["updatedAt" := AS s]> a).

(** The table [tc] is [t] with the injections under the keys [ks] fixed. *)
Definition fixed_at t (ks : list (string * string))
  (tc : gmap (string * string) item) : Prop :=
  forall k,
    (t !! k = None -> tc !! k = None) /\
    (forall a, t !! k = Some a ->
       (k ∈ ks -> exists v s, needs_fix t k v /\
                               tc !! k = Some (fixed_item v s a)) /\
       (k ∉ ks -> tc !! k = Some a)).

(** The keys a list of requests addresses. *)
Definition request_keys (rqs : list request) : list (string * string) :=
  omap request_key rqs.

(** ** Vocabulary of the further properties *)

(** The stretches that the successive [scan] calls of a world cover. *)
Definition table_pages (w : world) : list (list item) :=
  scan_pages (w_page w) (S (w_page w)) [] (table_items w).


(** [get_dynamo_to_clean_vial_mapping]. *)
Definition get_dynamo_to_clean_vial_mapping : gmap string string :=
  <["25eaa9d1-676f-47c8-ad0b-6e5783bb912e" := "vial_20240805_2"]>
  (<["c45df327-4a87-4cb6-971b-f490d03e5ae1" := "vial_20240805_2"]>
  (<["vial-1" := "vial_20241029_1"]> ∅)).

(** Two stored items that differ at most in [vialId] and [updatedAt]. *)
Definition only_vial_changed (a a' : item) : Prop :=
  forall name, name <> "vialId" -> name <> "updatedAt" ->
               a' !! name = a !! name.

(** The table [t'] has the keys of [t], and its items are those of [t]
    but for the [vialId] and [updatedAt] of stored injections. *)
Definition touches_only_injections t (t' : gmap (string * string) item)
  : Prop :=
  forall k,
    (t !! k = None -> t' !! k = None) /\
    (forall a, t !! k = Some a ->
       exists a', t' !! k = Some a' /\ only_vial_changed a a' /\
                  (~ is_injection k a -> a' = a)).

(** The table [tc] is [t] where some of the injections that need a fix
    have it. *)
Definition partly_fixed t (tc : gmap (string * string) item) : Prop :=
  forall k,
    (t !! k = None -> tc !! k = None) /\
    (forall a, t !! k = Some a ->
       tc !! k = Some a \/
       exists v s, needs_fix t k v /\ tc !! k = Some (fixed_item v s a)).

(** The number of shots in [vial_shots]. *)
Definition total_shots (vs : shots_by_vial) : nat :=
  foldr (fun g n => length g.2 + n) 0 vs.

(** The count of a vial in [expected]; [0] when it has no entry. *)
Fixpoint expected_count (vial : option string) (ex : distribution) : Z :=
  match ex with
  | [] => 0
  | (k, (count, _)) :: rest =>
    if bool_decide (k = vial) then count else expected_count vial rest
  end.

(** The number of injections for which the policy returns [vial]. *)
Fixpoint policy_count (vial : option string) (injections : list dict) : Z :=
  match injections with
  | [] => 0
  | inj :: rest =>
    (match get_correct_vial_for_date (py_get inj "timestamp" (PStr "")) with
     | Ok r => if bool_decide (r = vial) then 1 else 0
     | Raise _ => 0
     end + policy_count vial rest)%Z
  end.

End Script.

(** ** A reference instance of the builtins *)

(** Floats with a zero fraction, written [d.0] as Python writes them, and a
    [repr] that abbreviates the payload.  The instance serves to evaluate
    the script on concrete tables; the theorems of the sections below hold
    for every instance. *)
Definition whole_of_string (s : string) : option Z :=
  let digits (t : string) : option Z := Z.of_int <$> NilZero.int_of_string t in
  match index 0 "." s with
  | None => digits s
  | Some i =>
    if String.eqb (substring (S i) (String.length s - S i) s) "0"
    then digits (substring 0 i s)
    else None
  end.

#[global] Instance whole_floats : PyBuiltins := {|
  float := Z;
  float_of_string := whole_of_string;
  float_of_Z := Some;
  float_str := fun x => NilZero.string_of_int (Z.to_int x) ++ ".0";
  float_bool := fun x => negb (Z.eqb x 0);
  float_add := Z.add;
  float_eqb := Z.eqb;
  float_eq_Z := Z.eqb;
  attr_repr := fun a => "{'" ++ attr_tag a ++ "': ...}"
|}.



(** ** Concrete tables *)

(** An injection of 2025-11-05 that has no vial yet. *)
Definition unassigned_injection : dict :=
  <["PK" := PStr "USER#1"]> (<["SK" := PStr "INJECTION#8"]>
  (<["timestamp" := PStr "2025-11-05T09:00"]>
  (<["doseMg" := PFloat 5%Z]> ∅))).

(** The attributes, besides the key, of a stored injection of 5 mg. *)
Definition demo_injection (timestamp : string) (vial : attr) : item :=
  <["entityType" := AS "INJECTION"]> (<["timestamp" := AS timestamp]>
  (<["doseMg" := AN "5"]> (<["vialId" := vial]> ∅))).

(** A table with three injections and a vial: the first injection is on the
    vial of its date, the second has no vial, the third is on a dry-stock
    vial. *)
Definition demo_table : gmap (string * string) item :=
  <[("USER#1", "INJECTION#1") :=
      demo_injection "2025-08-20T08:00" (AS "vial_20240805_1")]>
  (<[("USER#1", "INJECTION#2") :=
      demo_injection "2025-09-20T08:00" (ANULL true)]>
  (<[("USER#1", "INJECTION#3") :=
      demo_injection "2025-11-05T09:00" (AS "vial_20241029_3")]>
  (<[("USER#1", "VIAL#1") := <["entityType" := AS "VIAL"]> ∅]> ∅))).

(** A world around a table: nothing printed or issued yet, scans that
    succeed, two items to a scan response. *)
Definition world_of (t : gmap (string * string) item) (fails : nat -> bool)
  : world :=
  {| w_table := t; w_stdout := []; w_updates := []; w_scans := 0;
     w_update_fails := fails; w_scan_fails := fun _ => false;
     w_clock := fun _ => "2025-11-06T10:00:00"; w_page := 1 |}.

(** No update call fails. *)
Definition never : nat -> bool := fun _ => false.

(** The value of a call that returned. *)
Definition returned {A : Type} (dflt : A) (r : result A) : A :=
  match r with Ok a => a | Raise _ => dflt end.

(** The injections and the change-set of [demo_table]. *)
Definition demo_injections : list dict :=
  returned [] (table_injections demo_table).

Definition demo_changes : list change :=
  returned [] (plan_changes demo_injections).2.

(** A table whose only injection is on the vial of its date. *)
Definition settled_table : gmap (string * string) item :=
  <[("USER#1", "INJECTION#1") :=
      demo_injection "2025-08-20T08:00" (AS "vial_20240805_1")]> ∅.

(** A table whose only injection has an empty timestamp and no vial. *)
Definition undated_table : gmap (string * string) item :=
  <[("USER#1", "INJECTION#9") := demo_injection "" (ANULL true)]> ∅.

(** A table with an undated injection and one to move. *)
Definition mixed_table : gmap (string * string) item :=
  <[("USER#1", "INJECTION#9") := demo_injection "" (ANULL true)]>
  (<[("USER#1", "INJECTION#3") :=
      demo_injection "2025-11-05T09:00" (AS "vial_20241029_3")]> ∅).

(** Only the first update call fails. *)
Definition first_fails : nat -> bool := fun n => Nat.eqb n 0.

(** Whether a line is the banner of the given title. *)
Definition is_banner (title : string) (l : line) : bool :=
  match l with
  | LBanner s => String.eqb s title
  | _ => false
  end.

(** Whether standard output shows the expected distribution. *)
Definition prints_expected (w : world) : bool :=
  existsb (is_banner "Expected distribution after fix:") (w_stdout w).

(** Whether an item parses to an injection whose vial is a string. *)
Definition has_string_vial (it : item) : bool :=
  match parse_item it with
  | Ok inj => match inj !! "vialId" with Some (PStr _) => true | _ => false end
  | Raise _ => false
  end.

(** The world of [demo_table] in which the second [scan] call fails. *)
Definition second_scan_fails : world :=
  {| w_table := demo_table; w_stdout := []; w_updates := []; w_scans := 0;
     w_update_fails := never; w_scan_fails := fun n => Nat.eqb n 1;
     w_clock := fun _ => "2025-11-06T10:00:00"; w_page := 1 |}.

(** An injection whose timestamp is a number. *)
Definition numeric_injection : dict :=
  <["PK" := PStr "USER#1"]> (<["SK" := PStr "INJECTION#7"]>
  (<["timestamp" := PInt 20251105]> ∅)).

(** An injection on the vial of its date, without its key. *)
Definition keyless_injection : dict :=
  <["timestamp" := PStr "2025-08-20T08:00"]>
  (<["vialId" := PStr "vial_20240805_1"]> ∅).

(** A change record whose sort key is a number. *)
Definition numeric_key_change : change :=
  {| ch_PK := PStr "USER#1"; ch_SK := PInt 7;
     ch_timestamp := PStr "2025-11-05T09:00"; ch_doseMg := PFloat 5%Z;
     ch_current_vial := PNone; ch_correct_vial := "vial_20251105_1" |}.

(** The injections and the change-set of [mixed_table]. *)
Definition mixed_injections : list dict :=
  returned [] (load_records (world_of mixed_table never)).1.

Definition mixed_changes : list change :=
  returned [] (plan_changes mixed_injections).2.

(** The expected distribution of [demo_table]. *)
Definition demo_expected : distribution :=
  returned [] (expected_loop demo_injections []).

(** ** The assignment policy *)

Section Policy.

Context `{PyBuiltins}.

Lemma leb_not_ltb (a b : string) : String.leb a b = negb (String.ltb b a).
Proof.
  unfold String.leb, String.ltb.
  rewrite (String.compare_antisym b a).
  destruct (String.compare a b); reflexivity.
Qed.

Lemma compare_lt_trans (a b c : string) :
  String.compare a b = Lt -> String.compare b c = Lt ->
  String.compare a c = Lt.
Proof.
  revert b c. induction a as [| x a IH]; intros [| y b] [| z c]; simpl;
    try discriminate; try reflexivity.
  unfold Ascii.compare.
  destruct (N.compare_spec (N_of_ascii x) (N_of_ascii y)) as [Exy | Lxy | Gxy];
    try discriminate.
  - rewrite Exy.
    destruct (N.compare (N_of_ascii y) (N_of_ascii z)); try discriminate;
      [apply IH | reflexivity].
  - intros _.
    destruct (N.compare_spec (N_of_ascii y) (N_of_ascii z)) as [Eyz | Lyz | Gyz];
      try discriminate; intros _.
    + rewrite <- Eyz. apply N.compare_lt_iff in Lxy. rewrite Lxy. reflexivity.
    + assert (Hxz : (N_of_ascii x < N_of_ascii z)%N) by (etransitivity; eassumption).
      apply N.compare_lt_iff in Hxz. rewrite Hxz. reflexivity.
Qed.

Lemma ltb_trans (a b c : string) :
  String.ltb a b = true -> String.ltb b c = true -> String.ltb a c = true.
Proof.
  unfold String.ltb.
  destruct (String.compare a b) eqn:Hab; try discriminate.
  destruct (String.compare b c) eqn:Hbc; try discriminate.
  rewrite (compare_lt_trans a b c Hab Hbc). reflexivity.
Qed.

Lemma truthy_str (s : string) : s <> "" -> py_truthy (PStr s) = true.
Proof.
  intros Hs. simpl. apply negb_true_iff, String.eqb_neq. exact Hs.
Qed.

(** On a non-empty string the function is the two comparisons. *)
Lemma get_correct_vial_str (t : string) :
  t <> "" ->
  get_correct_vial_for_date (PStr t) =
    Ok (Some (if String.ltb (substring 0 10 t) "2025-09-13"
              then "vial_20240805_1"
              else if String.ltb (substring 0 10 t) "2025-10-29"
                   then "vial_20240805_2"
                   else "vial_20241029_1")).
Proof.
  intros Ht. unfold get_correct_vial_for_date.
  rewrite (truthy_str t Ht). simpl.
  destruct (String.ltb (substring 0 10 t) "2025-09-13"); [reflexivity |].
  destruct (String.ltb (substring 0 10 t) "2025-10-29"); reflexivity.
Qed.

Lemma get_correct_vial_falsy (x : value) :
  py_truthy x = false -> get_correct_vial_for_date x = Ok None.
Proof.
  intros Hx. unfold get_correct_vial_for_date. rewrite Hx. reflexivity.
Qed.

(** Whatever the argument, a vial returned is a vial of the policy. *)
Lemma get_correct_vial_policy (x : value) (v : string) :
  get_correct_vial_for_date x = Ok (Some v) -> In v policy_vials.
Proof.
  unfold get_correct_vial_for_date.
  destruct (py_truthy x); simpl; [| discriminate].
  destruct x; simpl; try discriminate.
  destruct (String.ltb _ "2025-09-13"); simpl.
  - intros [= <-]. simpl. tauto.
  - destruct (String.ltb _ "2025-10-29"); intros [= <-]; simpl; tauto.
Qed.

Lemma policy_vials_not_dry (v : string) :
  In v policy_vials -> ~ In v DRY_STOCK_VIALS.
Proof.
  intros Hv Hd. simpl in Hv, Hd.
  destruct Hv as [<- | [<- | [<- | []]]];
    destruct Hd as [Hd | [Hd | [Hd | []]]]; discriminate Hd.
Qed.

(** C1: on a non-empty timestamp the first ten characters are compared with
    the two boundaries; each boundary belongs to the window it opens. *)
Theorem get_correct_vial_for_date_windows (t : string) :
  t <> "" ->
  let d := substring 0 10 t in
  (String.ltb d "2025-09-13" = true ->
   get_correct_vial_for_date (PStr t) = Ok (Some "vial_20240805_1")) /\
  (String.leb "2025-09-13" d = true -> String.ltb d "2025-10-29" = true ->
   get_correct_vial_for_date (PStr t) = Ok (Some "vial_20240805_2")) /\
  (String.leb "2025-10-29" d = true ->
   get_correct_vial_for_date (PStr t) = Ok (Some "vial_20241029_1")) /\
  get_correct_vial_for_date (PStr "2025-09-12T08:00")
    = Ok (Some "vial_20240805_1") /\
  get_correct_vial_for_date (PStr "2025-09-13T00:00")
    = Ok (Some "vial_20240805_2") /\
  get_correct_vial_for_date (PStr "2025-11-01T12:00")
    = Ok (Some "vial_20241029_1").
Proof.
  intros Ht d. rewrite (get_correct_vial_str t Ht). fold d.
  repeat split; try reflexivity.
  - intros ->. reflexivity.
  - rewrite leb_not_ltb. intros H1 ->.
    apply negb_true_iff in H1. rewrite H1. reflexivity.
  - rewrite leb_not_ltb. intros H2. apply negb_true_iff in H2.
    rewrite H2.
    destruct (String.ltb d "2025-09-13") eqn:H1; [| reflexivity].
    rewrite (ltb_trans d "2025-09-13" "2025-10-29" H1 eq_refl) in H2.
    discriminate H2.
Qed.

(** C2: no argument makes the policy return a dry-stock vial; on a string
    it returns, and what it returns is [None] or one of the three vials of
    the policy. *)
Theorem get_correct_vial_never_dry_stock :
  (forall s : string,
     exists r, get_correct_vial_for_date (PStr s) = Ok r /\
       forall v, r = Some v -> In v policy_vials /\ ~ In v DRY_STOCK_VIALS) /\
  (forall (x : value) (v : string),
     get_correct_vial_for_date x = Ok (Some v) ->
     In v policy_vials /\ ~ In v DRY_STOCK_VIALS).
Proof.
  assert (Hall : forall (x : value) (v : string),
            get_correct_vial_for_date x = Ok (Some v) ->
            In v policy_vials /\ ~ In v DRY_STOCK_VIALS).
  { intros x v Hx. pose proof (get_correct_vial_policy x v Hx) as Hv.
    split; [exact Hv | exact (policy_vials_not_dry v Hv)]. }
  split; [| exact Hall].
  intros s. destruct (String.eqb_spec s "") as [-> | Hs].
  - exists None. split; [reflexivity | discriminate].
  - eexists. split; [apply (get_correct_vial_str s Hs) |].
    intros v Hv. apply (Hall (PStr s)).
    rewrite (get_correct_vial_str s Hs). f_equal. exact Hv.
Qed.

End Policy.

(** ** Marshalling *)

Section Marshalling.

Context `{PyBuiltins}.

Lemma parse_unknown_tag (a : attr) :
  ~ In (attr_tag a) known_tags -> parse_dynamo_value a = Ok (PRaw a).
Proof.
  intros Hk. destruct a; simpl in *; try reflexivity; exfalso; tauto.
Qed.

(** C9, as the code has it: a value with an unknown tag is returned as it
    is, the tagged dict itself and not a string, and the call does not
    fail; under a known tag the payload is returned as a string, a float
    (when [float()] accepts the digits), [None] or a bool. *)
Theorem parse_dynamo_value_by_tag :
  (forall a : attr,
     ~ In (attr_tag a) known_tags -> parse_dynamo_value a = Ok (PRaw a)) /\
  (forall s, parse_dynamo_value (AS s) = Ok (PStr s)) /\
  (forall n x, float_of_string n = Some x ->
     parse_dynamo_value (AN n) = Ok (PFloat x)) /\
  (forall n, float_of_string n = None ->
     parse_dynamo_value (AN n) = Raise ValueError) /\
  (forall b, parse_dynamo_value (ANULL b) = Ok PNone) /\
  (forall b, parse_dynamo_value (ABOOL b) = Ok (PBool b)).
Proof.
  split; [exact parse_unknown_tag |].
  repeat split; try reflexivity.
  - intros n x Hn. simpl. rewrite Hn. reflexivity.
  - intros n Hn. simpl. rewrite Hn. reflexivity.
Qed.



End Marshalling.

(** ** The planner *)

Section Planner.

Context `{PyBuiltins}.

(** The policy returns a vial only for a non-empty string. *)
Lemma get_correct_vial_some_str (x : value) (v : string) :
  get_correct_vial_for_date x = Ok (Some v) ->
  exists t, x = PStr t /\ t <> "".
Proof.
  unfold get_correct_vial_for_date.
  destruct (py_truthy x) eqn:Hx; simpl; [| discriminate].
  destruct x; simpl; try discriminate.
  intros _. exists s. split; [reflexivity |].
  intros ->. discriminate Hx.
Qed.

Lemma policy_vial_truthy (v : string) :
  In v policy_vials -> vial_falsy (Some v) = false.
Proof.
  simpl. intros [<- | [<- | [<- | []]]]; reflexivity.
Qed.

Lemma policy_vial_no_dry_mention (v : string) :
  In v policy_vials -> mentions_dry_stock (PStr v) = false.
Proof.
  simpl. intros [<- | [<- | [<- | []]]]; reflexivity.
Qed.

(** With a vial of the policy, the three tests of the planner add up to
    the comparison of the current vial with it. *)
Lemma needs_change_iff (current : value) (v : string) :
  In v policy_vials -> (needs_change current v = true <-> current <> PStr v).
Proof.
  intros Hv. unfold needs_change.
  destruct (is_none current) eqn:Hn.
  { destruct current; try discriminate Hn. split; [discriminate | reflexivity]. }
  destruct (mentions_dry_stock current) eqn:Hd.
  { split; [| reflexivity]. intros _ ->.
    rewrite (policy_vial_no_dry_mention v Hv) in Hd. discriminate Hd. }
  destruct current as [| b | z | f | t | a]; simpl;
    try (split; [discriminate | reflexivity]).
  destruct (String.eqb_spec t v) as [-> | Hne]; simpl.
  - split; [discriminate | intros Hc; exfalso; apply Hc; reflexivity].
  - split; [| reflexivity]. intros _ [= Heq]. exact (Hne Heq).
Qed.

Lemma wrongly_assigned_iff (current : value) (v : string) :
  In v policy_vials -> (wrongly_assigned current v <-> current <> PStr v).
Proof.
  intros Hv. unfold wrongly_assigned. split; [| tauto].
  intros [-> | [(d & Hd & ->) | Hne]]; [discriminate | | exact Hne].
  intros [= ->]. exact (policy_vials_not_dry v Hv Hd).
Qed.

(** One iteration of the loop for an injection the policy has a vial for. *)
Lemma plan_injection_some (inj : dict) (v : string) :
  get_correct_vial_for_date (py_get inj "timestamp" (PStr "")) = Ok (Some v) ->
  plan_injection inj =
    if needs_change (py_get inj "vialId" PNone) v then
      do pk <- py_getitem inj "PK";
      do sk <- py_getitem inj "SK";
      Ok (Some {| ch_PK := pk; ch_SK := sk;
                  ch_timestamp := py_get inj "timestamp" (PStr "");
                  ch_doseMg := py_get inj "doseMg" PNone;
                  ch_current_vial :=
                    py_or (py_get inj "vialId" PNone) (PStr "NULL");
                  ch_correct_vial := v |},
          [LChange (PStr (substring 0 10
                            (py_str (py_get inj "timestamp" (PStr "")))))
                   (py_get inj "doseMg" PNone)
                   (py_or (py_get inj "vialId" PNone) (PStr "NULL")) v])
    else Ok (None, []).
Proof.
  intros Hv. unfold plan_injection. rewrite Hv. simpl.
  pose proof (get_correct_vial_policy _ _ Hv) as Hp.
  pose proof (policy_vial_truthy v Hp) as Hf. simpl in Hf. rewrite Hf.
  destruct (needs_change _ v); [| reflexivity].
  destruct (get_correct_vial_some_str _ _ Hv) as (t & -> & Ht).
  rewrite (truthy_str t Ht). simpl.
  destruct (py_getitem inj "PK"); [| reflexivity]. simpl.
  destruct (py_getitem inj "SK"); reflexivity.
Qed.

(** One iteration for an injection the policy has no vial for. *)
Lemma plan_injection_none (inj : dict) :
  get_correct_vial_for_date (py_get inj "timestamp" (PStr "")) = Ok None ->
  plan_injection inj =
    Ok (None, [LCannotDetermine (py_get inj "timestamp" (PStr ""))]).
Proof.
  intros Hv. unfold plan_injection. rewrite Hv. reflexivity.
Qed.

(** C3: for an injection the policy has a vial for, the planner flags it
    and appends its change record exactly when the current vial is null, a
    dry-stock vial or another vial than the policy's; an injection of
    2025-11-05 on a dry-stock vial is flagged and moved to
    [vial_20241029_1]. *)
Theorem planner_flags_wrong_assignment (inj : dict) (v : string) (pk sk : value) :
  get_correct_vial_for_date (py_get inj "timestamp" (PStr "")) = Ok (Some v) ->
  inj !! "PK" = Some pk ->
  inj !! "SK" = Some sk ->
  let current := py_get inj "vialId" PNone in
  (needs_change current v = true <-> wrongly_assigned current v) /\
  (wrongly_assigned current v ->
   exists out,
     plan_injection inj =
       Ok (Some {| ch_PK := pk; ch_SK := sk;
                   ch_timestamp := py_get inj "timestamp" (PStr "");
                   ch_doseMg := py_get inj "doseMg" PNone;
                   ch_current_vial := py_or current (PStr "NULL");
                   ch_correct_vial := v |}, out)) /\
  (~ wrongly_assigned current v -> plan_injection inj = Ok (None, [])) /\
  (forall d, In d DRY_STOCK_VIALS ->
     get_correct_vial_for_date (PStr "2025-11-05T09:00")
       = Ok (Some "vial_20241029_1") /\
     needs_change (PStr d) "vial_20241029_1" = true) /\
  (exists out,
     plan_injection
       (<["PK" := PStr "USER#1"]> (<["SK" := PStr "INJECTION#7"]>
        (<["timestamp" := PStr "2025-11-05T09:00"]>
        (<["vialId" := PStr "vial_20241029_3"]> ∅)))) =
     Ok (Some {| ch_PK := PStr "USER#1"; ch_SK := PStr "INJECTION#7";
                 ch_timestamp := PStr "2025-11-05T09:00";
                 ch_doseMg := PNone;
                 ch_current_vial := PStr "vial_20241029_3";
                 ch_correct_vial := "vial_20241029_1" |}, out)).
Proof.
  intros Hv Hpk Hsk current.
  pose proof (get_correct_vial_policy _ _ Hv) as Hp.
  pose proof (needs_change_iff current v Hp) as Hn.
  pose proof (wrongly_assigned_iff current v Hp) as Hw.
  pose proof (plan_injection_some inj v Hv) as Hplan. fold current in Hplan.
  unfold py_getitem in Hplan. rewrite Hpk, Hsk in Hplan. simpl in Hplan.
  split; [tauto |]. split; [| split; [| split]].
  - intros Hwrong. apply Hw, Hn in Hwrong. rewrite Hwrong in Hplan.
    eexists. exact Hplan.
  - intros Hright. destruct (needs_change current v); [| exact Hplan].
    exfalso. apply Hright, Hw, Hn. reflexivity.
  - intros d Hd. split; [reflexivity |].
    simpl in Hd. destruct Hd as [<- | [<- | [<- | []]]]; reflexivity.
  - eexists. vm_compute. reflexivity.
Qed.

(** C8, as the code has it: the policy returns [None] exactly when the
    timestamp is empty, and the planner then prints its diagnostic, appends
    no change record and goes on with the injections that follow; a
    non-empty string gets a vial whether or not it is a date. *)
Theorem empty_timestamp_is_skipped :
  (forall ts : value,
     py_truthy ts = false -> get_correct_vial_for_date ts = Ok None) /\
  (forall s : string,
     get_correct_vial_for_date (PStr s) = Ok None <-> s = "") /\
  (forall (inj : dict) (rest : list dict),
     py_truthy (py_get inj "timestamp" (PStr "")) = false ->
     plan_changes (inj :: rest) =
       (LCannotDetermine (py_get inj "timestamp" (PStr ""))
          :: (plan_changes rest).1,
        (plan_changes rest).2)).
Proof.
  split; [exact get_correct_vial_falsy |]. split.
  - intros s. split.
    + intros Hs. destruct (String.eqb_spec s "") as [-> | Hne]; [reflexivity |].
      rewrite (get_correct_vial_str s Hne) in Hs. discriminate Hs.
    + intros ->. reflexivity.
  - intros inj rest Hts. simpl.
    rewrite (plan_injection_none inj (get_correct_vial_falsy _ Hts)).
    destruct (plan_changes rest) as [out r]. simpl.
    f_equal. destruct r; reflexivity.
Qed.

End Planner.

(** ** The apply executor *)

Section Executor.

Context `{PyBuiltins}.

Lemma count_ok_le (fails : nat -> bool) (n : nat) (rqs : list request) :
  count_ok fails n rqs <= length rqs.
Proof.
  revert n. induction rqs as [| rq rest IH]; intros n; simpl; [lia |].
  specialize (IH (S n)). destruct (update_ok fails n rq); lia.
Qed.

Lemma length_requests_of (clock : nat -> string) (n : nat) (cs : list change) :
  length (requests_of clock n cs) = length cs.
Proof.
  revert n. induction cs as [| c rest IH]; intros n; simpl; [| rewrite IH];
    reflexivity.
Qed.

(** One iteration of the apply loop on a change whose sort key is a
    string: the request is logged, the table follows the outcome, the rest
    of the world is left alone. *)
Lemma apply_change_spec (c : change) (w : world) (sk : string) :
  ch_SK c = PStr sk ->
  let n := length (w_updates w) in
  let rq := request_of c (w_clock w n) in
  let ok := update_ok (w_update_fails w) n rq in
  (apply_change c w).1 = Ok ok /\
  w_updates (apply_change c w).2 = (w_updates w ++ [rq])%list /\
  w_table (apply_change c w).2
    = (if ok then table_after rq (w_table w) else w_table w) /\
  w_update_fails (apply_change c w).2 = w_update_fails w /\
  w_clock (apply_change c w).2 = w_clock w /\
  w_scans (apply_change c w).2 = w_scans w /\
  w_scan_fails (apply_change c w).2 = w_scan_fails w /\
  w_page (apply_change c w).2 = w_page w.
Proof.
  intros Hsk n rq ok. subst ok rq n.
  unfold apply_change, bindM, liftM, emit, retM, dynamo_update_item,
    update_ok, table_after, request_key, request_of.
  rewrite Hsk. simpl.
  destruct (w_update_fails w (length (w_updates w))); simpl;
    [repeat split; reflexivity |].
  destruct (format_dynamo_value (ch_PK c)); simpl; repeat split; reflexivity.
Qed.

(** The apply loop on a change-set whose sort keys are strings. *)
Lemma apply_changes_spec (changes : list change) (w : world) (s0 e0 : nat) :
  Forall (fun c => isinstance_str (ch_SK c) = true) changes ->
  let n := length (w_updates w) in
  let rqs := requests_of (w_clock w) n changes in
  let oks := count_ok (w_update_fails w) n rqs in
  (apply_changes changes s0 e0 w).1
    = Ok (s0 + oks, e0 + (length changes - oks)) /\
  w_updates (apply_changes changes s0 e0 w).2 = (w_updates w ++ rqs)%list /\
  w_table (apply_changes changes s0 e0 w).2
    = table_after_all (w_update_fails w) n rqs (w_table w) /\
  w_update_fails (apply_changes changes s0 e0 w).2 = w_update_fails w /\
  w_clock (apply_changes changes s0 e0 w).2 = w_clock w.
Proof.
  intros Hsk. revert w s0 e0.
  induction Hsk as [| c rest Hc Hrest IH]; intros w s0 e0; simpl.
  { rewrite app_nil_r. repeat split; try reflexivity.
    unfold retM. simpl. f_equal. f_equal; lia. }
  destruct (ch_SK c) as [| | | | sk |] eqn:Hsk; try discriminate Hc.
  destruct (apply_change_spec c w sk Hsk) as (Hr & Hu & Ht & Hf & Hk & _).
  unfold bindM at 1 2 3 4 5.
  destruct (apply_change c w) as [r w1]. simpl in Hr, Hu, Ht, Hf, Hk.
  subst r.
  assert (Hn : length (w_updates w1) = S (length (w_updates w))).
  { rewrite Hu, length_app. simpl. lia. }
  pose proof (count_ok_le (w_update_fails w) (S (length (w_updates w)))
                (requests_of (w_clock w) (S (length (w_updates w))) rest)) as Hle.
  rewrite length_requests_of in Hle.
  destruct (update_ok _ _ _) eqn:Hok.
  - destruct (IH w1 (S s0) e0) as (Hr' & Hu' & Ht' & Hf' & Hk').
    rewrite Hn, Hf, Hk in *. rewrite Hr', Hu', Ht', Hf', Hk', Hu, Ht.
    rewrite <- app_assoc. simpl. repeat split; try reflexivity.
    f_equal. f_equal; lia.
  - destruct (IH w1 s0 (S e0)) as (Hr' & Hu' & Ht' & Hf' & Hk').
    rewrite Hn, Hf, Hk in *. rewrite Hr', Hu', Ht', Hf', Hk', Hu, Ht.
    rewrite <- app_assoc. simpl. repeat split; try reflexivity.
    f_equal. f_equal; lia.
Qed.

End Executor.

(** ** Reading the table *)

Section Reading.

Context `{PyBuiltins}.

Lemma parse_total_ok (a : attr) :
  parses a -> parse_dynamo_value a = Ok (parse_total a).
Proof.
  unfold parses, parse_total. destruct (parse_dynamo_value a); simpl;
    [reflexivity | discriminate].
Qed.

Lemma parse_entries_ok (l : list (string * attr)) :
  Forall (fun e => parses e.2) l ->
  parse_entries l = Ok (prod_map id parse_total <$> l).
Proof.
  induction 1 as [| [k a] rest Ha Hrest IH]; simpl; [reflexivity |].
  rewrite (parse_total_ok a Ha). simpl. rewrite IH. reflexivity.
Qed.

Lemma parse_entries_inv (l : list (string * attr)) (l' : list (string * value)) :
  parse_entries l = Ok l' -> Forall (fun e => parses e.2) l.
Proof.
  revert l'. induction l as [| [k a] rest IH]; intros l' Hl; simpl in *;
    [constructor |].
  unfold parses. destruct (parse_dynamo_value a) eqn:Ha; simpl in Hl;
    [| discriminate].
  destruct (parse_entries rest) eqn:Hr; simpl in Hl; [| discriminate].
  constructor; [simpl; rewrite Ha; reflexivity | eapply IH; reflexivity].
Qed.

Lemma entries_parse_iff (it : item) :
  Forall (fun e : string * attr => parses e.2) (map_to_list it) <->
  map_Forall (fun _ a => parses a) it.
Proof.
  rewrite map_Forall_to_list. apply Forall_proper; [| reflexivity].
  intros [k a]. reflexivity.
Qed.

(** An item whose attributes all parse gives the dict of their values. *)
Lemma parse_item_ok (it : item) :
  map_Forall (fun _ a => parses a) it ->
  parse_item it = Ok (parse_total <$> it).
Proof.
  intros Hall. unfold parse_item.
  rewrite (parse_entries_ok _ (proj2 (entries_parse_iff it) Hall)). simpl.
  rewrite list_to_map_fmap, list_to_map_to_list. reflexivity.
Qed.

(** It is the only way for [parse_item] to return. *)
Lemma parse_item_inv (it : item) (d : dict) :
  parse_item it = Ok d ->
  map_Forall (fun _ a => parses a) it /\ d = parse_total <$> it.
Proof.
  intros Hd.
  assert (Hall : map_Forall (fun _ a => parses a) it).
  { apply entries_parse_iff. unfold parse_item in Hd.
    destruct (parse_entries (map_to_list it)) eqn:Hl; simpl in Hd;
      [| discriminate].
    eapply parse_entries_inv. exact Hl. }
  split; [exact Hall |].
  rewrite (parse_item_ok it Hall) in Hd. congruence.
Qed.

Lemma map_result_ok {A B : Type} (f : A -> result B) (g : A -> B) (l : list A) :
  Forall (fun x => f x = Ok (g x)) l -> map_result f l = Ok (g <$> l).
Proof.
  induction 1 as [| x rest Hx Hrest IH]; simpl; [reflexivity |].
  rewrite Hx. simpl. rewrite IH. reflexivity.
Qed.

Lemma map_result_inv {A B : Type} (f : A -> result B) (l : list A) (l' : list B) :
  map_result f l = Ok l' -> Forall2 (fun x y => f x = Ok y) l l'.
Proof.
  revert l'. induction l as [| x rest IH]; intros l' Hl; simpl in Hl.
  - injection Hl as <-. constructor.
  - destruct (f x) eqn:Hx; simpl in Hl; [| discriminate].
    destruct (map_result f rest) eqn:Hr; simpl in Hl; [| discriminate].
    injection Hl as <-. constructor; [exact Hx | apply IH; reflexivity].
Qed.

Lemma map_result_inv_fun {A B : Type} (f : A -> result B) (g : A -> B)
  (l : list A) (l' : list B) :
  (forall x y, f x = Ok y -> y = g x) ->
  map_result f l = Ok l' ->
  l' = g <$> l /\ Forall (fun x => f x = Ok (g x)) l.
Proof.
  intros Hg Hl. apply map_result_inv in Hl.
  induction Hl as [| x y l l' Hxy _ [IH1 IH2]]; [split; constructor |].
  pose proof (Hg x y Hxy) as ->. subst l'.
  split; [reflexivity | constructor; assumption].
Qed.

(** The stretches of [scan_pages] make up the table. *)
Lemma concat_scan_pages {A : Type} (size room : nat) (cur l : list A) :
  concat (scan_pages size room cur l) = (rev cur ++ l)%list.
Proof.
  revert room cur. induction l as [| x rest IH]; intros room cur; simpl.
  - rewrite !app_nil_r. reflexivity.
  - destruct room as [| room']; simpl; rewrite IH; simpl;
      [reflexivity | rewrite <- app_assoc; reflexivity].
Qed.

Lemma same_store_refl (w : world) : same_store w w.
Proof. repeat split. Qed.

Lemma same_store_trans (w1 w2 w3 : world) :
  same_store w1 w2 -> same_store w2 w3 -> same_store w1 w3.
Proof.
  unfold same_store. intros (? & ? & ? & ? & ? & ?) (? & ? & ? & ? & ? & ?).
  repeat split; congruence.
Qed.

Lemma read_only_ret {A : Type} (a : A) : read_only (retM a).
Proof. intros w. apply same_store_refl. Qed.

Lemma read_only_lift {A : Type} (r : result A) : read_only (liftM r).
Proof. intros w. apply same_store_refl. Qed.

Lemma read_only_emit (out : list line) : read_only (emit out).
Proof. intros w. repeat split. Qed.

Lemma read_only_bind {A B : Type} (c : M A) (k : A -> M B) :
  read_only c -> (forall a, read_only (k a)) -> read_only (bindM c k).
Proof.
  intros Hc Hk w. unfold bindM. specialize (Hc w).
  destruct (c w) as [[a | e] w1]; simpl in *; [| exact Hc].
  eapply same_store_trans; [exact Hc | apply Hk].
Qed.

Lemma read_only_printing {A : Type} (p : list line * result A) :
  read_only (printing p).
Proof.
  apply read_only_bind; [apply read_only_emit | intros _; apply read_only_lift].
Qed.

Lemma read_only_scan (kind : string) (page : list item) :
  read_only (dynamo_scan kind page).
Proof.
  intros w. unfold dynamo_scan.
  destruct (w_scan_fails w (w_scans w)); repeat split.
Qed.

Lemma read_only_scan_loop (kind : string) (pages : list (list item))
  (items : list item) : read_only (scan_loop kind pages items).
Proof.
  revert items. induction pages as [| page rest IH]; intros items; simpl.
  - apply read_only_ret.
  - apply read_only_bind; [apply read_only_scan | intros found; apply IH].
Qed.

Lemma read_only_scan_all (kind : string) : read_only (scan_all_items kind).
Proof. intros w. unfold scan_all_items. apply read_only_scan_loop. Qed.

Lemma read_only_load : read_only load_records.
Proof.
  unfold load_records.
  repeat (first [ apply read_only_bind; [| intros ?]
                | apply read_only_emit | apply read_only_scan_all
                | apply read_only_lift | apply read_only_ret ]).
Qed.

(** A scan that returns has gone through every stretch. *)
Lemma scan_loop_ok (kind : string) (pages : list (list item))
  (acc items : list item) (w w' : world) :
  scan_loop kind pages acc w = (Ok items, w') ->
  items = (acc ++ List.filter (has_entity_type kind) (concat pages))%list.
Proof.
  revert acc w. induction pages as [| page rest IH]; intros acc w; simpl.
  - unfold retM. intros [= <- _]. rewrite app_nil_r. reflexivity.
  - unfold bindM, dynamo_scan.
    destruct (w_scan_fails w (w_scans w)); [discriminate |].
    intros Hrest. apply IH in Hrest. rewrite Hrest.
    rewrite List.filter_app, app_assoc. reflexivity.
Qed.

Lemma scan_all_items_ok (kind : string) (items : list item) (w w' : world) :
  scan_all_items kind w = (Ok items, w') ->
  items = List.filter (has_entity_type kind) (table_items w).
Proof.
  unfold scan_all_items. intros Hs. apply scan_loop_ok in Hs.
  rewrite concat_scan_pages in Hs. exact Hs.
Qed.

Lemma load_records_ok (injections : list dict) (w w' : world) :
  load_records w = (Ok injections, w') ->
  table_injections (w_table w) = Ok injections /\ same_store w w'.
Proof.
  intros Hload. split.
  - revert Hload. unfold load_records, bindM at 1 2. simpl.
    destruct (scan_all_items "INJECTION" _) as [[raw | e] w1] eqn:Hscan;
      [| discriminate].
    apply scan_all_items_ok in Hscan. unfold table_items in Hscan.
    simpl in Hscan. subst raw. unfold table_injections.
    unfold bindM at 1, liftM at 1.
    destruct (map_result parse_item _) as [injs | e]; [| discriminate].
    unfold bindM at 1 2. simpl.
    destruct (scan_all_items "VIAL" _) as [[rawv | e] w2]; [| discriminate].
    unfold bindM, liftM.
    destruct (map_result parse_item rawv); [| discriminate].
    simpl. unfold retM. intros [= <- _]. reflexivity.
  - pose proof (read_only_load w) as Hro. rewrite Hload in Hro. exact Hro.
Qed.

End Reading.

(** ** Dry run *)

Section DryRun.

Context `{PyBuiltins}.

Lemma printing_run {A : Type} (out : list line) (r : result A) (w : world) :
  printing (out, r) w = (r, set_stdout (w_stdout w ++ out)%list w).
Proof. reflexivity. Qed.

Lemma read_only_reconcile_dry (injections : list dict) :
  read_only (reconcile true injections).
Proof.
  unfold reconcile.
  apply read_only_bind; [apply read_only_printing | intros _].
  apply read_only_bind; [apply read_only_emit | intros _].
  apply read_only_bind; [apply read_only_printing | intros changes].
  destruct changes as [| c cs]; [apply read_only_emit |].
  apply read_only_bind; [apply read_only_printing | intros _].
  apply read_only_emit.
Qed.

Lemma read_only_main_dry : read_only (main true).
Proof.
  unfold main. apply read_only_bind;
    [apply read_only_load | apply read_only_reconcile_dry].
Qed.

(** A dry run with nothing to change stops at the message that says so. *)
Lemma reconcile_dry_no_changes (injections : list dict) (w : world)
  (out1 out2 : list line) :
  report_current injections = (out1, Ok tt) ->
  plan_changes injections = (out2, Ok []) ->
  reconcile true injections w =
    (Ok tt,
     set_stdout
       (w_stdout w ++ out1 ++ [LBanner "Changes needed:"] ++ out2
                   ++ [LNoChanges])%list w).
Proof.
  intros Hreport Hplan. unfold reconcile. rewrite Hreport, Hplan.
  unfold bindM. rewrite !printing_run. unfold emit, set_stdout. simpl.
  rewrite <- !app_assoc. reflexivity.
Qed.

(** A dry run with changes prints them, then the expected distribution. *)
Lemma reconcile_dry_changes (injections : list dict) (w : world)
  (out1 out2 out3 : list line) (c : change) (cs : list change) :
  report_current injections = (out1, Ok tt) ->
  plan_changes injections = (out2, Ok (c :: cs)) ->
  report_expected (length (c :: cs)) injections = (out3, Ok tt) ->
  reconcile true injections w =
    (Ok tt,
     set_stdout
       (w_stdout w ++ out1 ++ [LBanner "Changes needed:"] ++ out2
                   ++ out3 ++ [LDryRun])%list w).
Proof.
  intros Hreport Hplan Hexp. unfold reconcile. rewrite Hreport, Hplan.
  unfold bindM. rewrite !printing_run. simpl.
  change (length (c :: cs)) with (S (length cs)) in Hexp. rewrite Hexp.
  unfold emit, set_stdout. simpl.
  rewrite <- !app_assoc. reflexivity.
Qed.

(** C6, as the code has it: whatever the table holds and whether or not
    the run completes, a dry run issues no update and leaves the table as it
    was.  With a change-set that is not empty it prints the changes and the
    expected distribution and returns; with an empty one it returns after
    the message that nothing has to change, before the expected
    distribution. *)
Theorem dry_run_performs_no_writes :
  (forall w : world,
     w_table (main true w).2 = w_table w /\
     w_updates (main true w).2 = w_updates w) /\
  (forall (w w1 : world) (injections : list dict) (out1 out2 : list line),
     load_records w = (Ok injections, w1) ->
     report_current injections = (out1, Ok tt) ->
     plan_changes injections = (out2, Ok []) ->
     main true w =
       (Ok tt,
        set_stdout
          (w_stdout w1 ++ out1 ++ [LBanner "Changes needed:"] ++ out2
                       ++ [LNoChanges])%list w1)) /\
  (forall (w w1 : world) (injections : list dict) (out1 out2 out3 : list line)
          (c : change) (cs : list change),
     load_records w = (Ok injections, w1) ->
     report_current injections = (out1, Ok tt) ->
     plan_changes injections = (out2, Ok (c :: cs)) ->
     report_expected (length (c :: cs)) injections = (out3, Ok tt) ->
     In (LBanner "Expected distribution after fix:") out3 /\
     main true w =
       (Ok tt,
        set_stdout
          (w_stdout w1 ++ out1 ++ [LBanner "Changes needed:"] ++ out2
                       ++ out3 ++ [LDryRun])%list w1)).
Proof.
  split; [| split].
  - intros w. destruct (read_only_main_dry w) as (Ht & Hu & _).
    split; assumption.
  - intros w w1 injections out1 out2 Hload Hreport Hplan.
    unfold main, bindM. rewrite Hload.
    apply reconcile_dry_no_changes; assumption.
  - intros w w1 injections out1 out2 out3 c cs Hload Hreport Hplan Hexp.
    split.
    + revert Hexp. unfold report_expected.
      destruct (do ex <- expected_loop injections []; sorted_expected ex);
        intros Heq; inversion Heq; subst; simpl; tauto.
    + unfold main, bindM. rewrite Hload.
      eapply reconcile_dry_changes; eassumption.
Qed.

End DryRun.

(** ** Live run *)

Section LiveRun.

Context `{PyBuiltins}.

Implicit Types (t : gmap (string * string) item) (k : string * string).

Lemma needs_fix_functional t k (v v' : string) :
  needs_fix t k v -> needs_fix t k v' -> v = v'.
Proof.
  intros (a & Ha & _ & Hv & _) (a' & Ha' & _ & Hv' & _).
  rewrite Ha in Ha'. injection Ha' as <-. congruence.
Qed.

Lemma entry_injection_PK k (a : item) :
  entry_injection k a !! "PK" = Some (PStr k.1).
Proof.
  unfold entry_injection, item_of_entry. rewrite lookup_fmap. simpl.
  rewrite lookup_insert_eq. reflexivity.
Qed.

Lemma entry_injection_SK k (a : item) :
  entry_injection k a !! "SK" = Some (PStr k.2).
Proof.
  unfold entry_injection, item_of_entry. rewrite lookup_fmap. simpl.
  rewrite lookup_insert_ne by discriminate.
  rewrite lookup_insert_eq. reflexivity.
Qed.

(** An attribute that is no key attribute is read from the stored item. *)
Lemma entry_injection_other k (a : item) (name : string) :
  name <> "PK" -> name <> "SK" ->
  entry_injection k a !! name = parse_total <$> (a !! name).
Proof.
  intros Hpk Hsk. unfold entry_injection, item_of_entry.
  rewrite lookup_fmap. simpl.
  rewrite !lookup_insert_ne by congruence. reflexivity.
Qed.

(** What [plan_injection] has done when it returns a change record. *)
Lemma plan_injection_change_inv (inj : dict) (c : change) (out : list line) :
  plan_injection inj = Ok (Some c, out) ->
  get_correct_vial_for_date (py_get inj "timestamp" (PStr ""))
    = Ok (Some (ch_correct_vial c)) /\
  needs_change (py_get inj "vialId" PNone) (ch_correct_vial c) = true /\
  inj !! "PK" = Some (ch_PK c) /\ inj !! "SK" = Some (ch_SK c).
Proof.
  destruct (get_correct_vial_for_date (py_get inj "timestamp" (PStr "")))
    as [[v |] | e] eqn:Hv.
  - rewrite (plan_injection_some inj v Hv).
    destruct (needs_change _ v) eqn:Hn; [| discriminate].
    unfold py_getitem.
    destruct (inj !! "PK") as [pk |]; simpl; [| discriminate].
    destruct (inj !! "SK") as [sk |]; simpl; [| discriminate].
    intros [= <- _]. simpl. repeat split; assumption.
  - rewrite (plan_injection_none inj Hv). discriminate.
  - unfold plan_injection. rewrite Hv. discriminate.
Qed.

(** What [plan_changes] has done when it returns: every iteration returned,
    and the change records are those of the iterations. *)
Lemma plan_changes_inv (injections : list dict) (out : list line)
  (changes : list change) :
  plan_changes injections = (out, Ok changes) ->
  Forall (fun inj => is_ok (plan_injection inj) = true) injections /\
  forall c, In c changes <->
    exists inj o, In inj injections /\ plan_injection inj = Ok (Some c, o).
Proof.
  revert out changes.
  induction injections as [| inj rest IH]; intros out changes; simpl.
  - intros [= _ <-]. split; [constructor |].
    intros c. split; [intros [] | intros (? & ? & [] & _)].
  - destruct (plan_injection inj) as [[oc o] | e] eqn:Hinj; [| discriminate].
    destruct (plan_changes rest) as [out' r] eqn:Hrest.
    destruct r as [cs | e]; simpl; [| discriminate].
    intros [= _ <-].
    destruct (IH out' cs eq_refl) as [Hok Hin].
    split; [constructor; [rewrite Hinj; reflexivity | exact Hok] |].
    intros c. split.
    + intros Hc.
      assert (Hcase : oc = Some c \/ In c cs).
      { destruct oc; simpl in Hc; [destruct Hc as [-> |] |]; tauto. }
      destruct Hcase as [-> | Hcs].
      * exists inj, o. tauto.
      * apply Hin in Hcs. destruct Hcs as (inj' & o' & Hin' & Hp).
        exists inj', o'. tauto.
    + intros (inj' & o' & [<- | Hin'] & Hp).
      * rewrite Hinj in Hp. injection Hp as -> _. left. reflexivity.
      * assert (Hcs : In c cs) by (apply Hin; eauto).
        destruct oc; simpl; tauto.
Qed.

(** A plan whose iterations all return without a change record is empty. *)
Lemma plan_changes_none (injections : list dict) :
  Forall (fun inj => exists o, plan_injection inj = Ok (None, o)) injections ->
  exists out, plan_changes injections = (out, Ok []).
Proof.
  induction 1 as [| inj rest [o Ho] Hrest [out IH]]; simpl.
  - eexists. reflexivity.
  - rewrite Ho, IH. simpl. eexists. reflexivity.
Qed.

(** The injections of a table that loads: one per stored injection item,
    whose attributes all parse. *)
Lemma table_injections_inv t (injections : list dict) :
  table_injections t = Ok injections ->
  (forall inj, In inj injections <->
     exists k a, t !! k = Some a /\ is_injection k a /\
                 inj = entry_injection k a) /\
  (forall k a, t !! k = Some a -> is_injection k a ->
     map_Forall (fun _ x => parses x) (item_of_entry (k, a))).
Proof.
  unfold table_injections. intros Hload.
  apply (map_result_inv_fun _ (fmap parse_total)) in Hload;
    [| intros it d Hd; apply parse_item_inv in Hd; tauto].
  destruct Hload as [-> Hparse].
  assert (Hitems : forall it,
            In it (List.filter (has_entity_type "INJECTION")
                     (item_of_entry <$> map_to_list t)) <->
            exists k a, t !! k = Some a /\ is_injection k a /\
                        it = item_of_entry (k, a)).
  { intros it. rewrite List.filter_In, <- list_elem_of_In, list_elem_of_fmap.
    split.
    - intros [([k a] & -> & Hin) Hkind].
      exists k, a. rewrite <- elem_of_map_to_list. tauto.
    - intros (k & a & Hka & Hkind & ->). split; [| exact Hkind].
      exists (k, a). rewrite elem_of_map_to_list. tauto. }
  split.
  - intros inj. rewrite <- list_elem_of_In, list_elem_of_fmap. split.
    + intros (it & -> & Hit). apply list_elem_of_In, Hitems in Hit.
      destruct Hit as (k & a & Hka & Hkind & ->). exists k, a. tauto.
    + intros (k & a & Hka & Hkind & ->). exists (item_of_entry (k, a)).
      split; [reflexivity |]. apply list_elem_of_In, Hitems.
      exists k, a. tauto.
  - intros k a Hka Hkind.
    assert (Hit : In (item_of_entry (k, a))
              (List.filter (has_entity_type "INJECTION")
                 (item_of_entry <$> map_to_list t))).
    { apply Hitems. exists k, a. tauto. }
    rewrite Forall_forall in Hparse.
    apply list_elem_of_In, Hparse, parse_item_inv in Hit. tauto.
Qed.

(** Every change record of the plan of a table addresses a stored
    injection that needs the fix it carries. *)
Lemma planned_changes_sound t (injections : list dict) (out : list line)
  (changes : list change) (c : change) :
  table_injections t = Ok injections ->
  plan_changes injections = (out, Ok changes) ->
  In c changes ->
  exists k, ch_PK c = PStr k.1 /\ ch_SK c = PStr k.2 /\
            needs_fix t k (ch_correct_vial c).
Proof.
  intros Hload Hplan Hc.
  destruct (table_injections_inv t injections Hload) as [Hinj _].
  destruct (plan_changes_inv injections out changes Hplan) as [_ Hin].
  apply Hin in Hc. destruct Hc as (inj & o & Hi & Hp).
  apply Hinj in Hi. destruct Hi as (k & a & Hka & Hkind & ->).
  apply plan_injection_change_inv in Hp.
  destruct Hp as (Hv & Hn & Hpk & Hsk).
  rewrite entry_injection_PK in Hpk. rewrite entry_injection_SK in Hsk.
  exists k. split; [congruence |]. split; [congruence |].
  exists a. tauto.
Qed.

(** Every stored injection that needs a fix has its change record. *)
Lemma planned_changes_complete t (injections : list dict) (out : list line)
  (changes : list change) k (v : string) :
  table_injections t = Ok injections ->
  plan_changes injections = (out, Ok changes) ->
  needs_fix t k v ->
  exists c, In c changes /\ ch_PK c = PStr k.1 /\ ch_SK c = PStr k.2 /\
            ch_correct_vial c = v.
Proof.
  intros Hload Hplan (a & Hka & Hkind & Hv & Hn).
  destruct (table_injections_inv t injections Hload) as [Hinj _].
  destruct (plan_changes_inv injections out changes Hplan) as [_ Hin].
  pose proof (plan_injection_some (entry_injection k a) v Hv) as Hp.
  rewrite Hn in Hp. unfold py_getitem in Hp.
  rewrite entry_injection_PK, entry_injection_SK in Hp. simpl in Hp.
  match type of Hp with _ = Ok (Some ?c, _) => exists c end.
  split; [| simpl; split; [| split]; reflexivity].
  apply Hin. exists (entry_injection k a). eexists.
  split; [| exact Hp]. apply Hinj. exists k, a. tauto.
Qed.

Lemma request_of_fixes t (c : change) (now : string) k :
  ch_PK c = PStr k.1 -> ch_SK c = PStr k.2 ->
  needs_fix t k (ch_correct_vial c) ->
  fixes t (request_of c now).
Proof.
  intros Hpk Hsk Hfix. exists k, (ch_correct_vial c), (now ++ "Z").
  unfold request_key, request_of. simpl. rewrite Hpk, Hsk. simpl.
  destruct k. tauto.
Qed.

Lemma fixed_item_again (v s v0 s0 : string) (a : item) :
  fixed_item v s (fixed_item v0 s0 a) = fixed_item v s a.
Proof.
  unfold fixed_item. apply map_eq. intros name.
  destruct (decide (name = "vialId")) as [-> | Hv];
    [rewrite !lookup_insert_eq; reflexivity |].
  rewrite (lookup_insert_ne _ "vialId" name) by congruence.
  rewrite (lookup_insert_ne (<["updatedAt":=AS s]> a) "vialId" name)
    by congruence.
  destruct (decide (name = "updatedAt")) as [-> | Hu];
    [rewrite !lookup_insert_eq; reflexivity |].
  repeat (rewrite lookup_insert_ne by congruence). reflexivity.
Qed.

Lemma fixed_at_start t : fixed_at t [] t.
Proof.
  intros k. split; [tauto |]. intros a Ha. split; [| tauto].
  intros Hk. apply elem_of_nil in Hk. destruct Hk.
Qed.

Lemma fixed_at_step t (ks : list (string * string))
  (tc : gmap (string * string) item) (rq : request) k :
  fixed_at t ks tc -> fixes t rq -> request_key rq = Some k ->
  fixed_at t (ks ++ [k]) (table_after rq tc).
Proof.
  intros Hinv (k0 & v & s & Hkey & Hvial & Hupd & Hfix) Hk.
  rewrite Hkey in Hk. injection Hk as ->.
  unfold table_after. rewrite Hkey, Hvial, Hupd. fold (fixed_item v s).
  intros k'. destruct (decide (k' = k)) as [-> | Hne].
  - destruct Hfix as (a & Ha & Hrest).
    split; [rewrite Ha; discriminate |].
    intros a' Ha'. rewrite Ha in Ha'. injection Ha' as <-.
    rewrite lookup_insert_eq.
    split; [| intros Hnot; exfalso; apply Hnot, elem_of_app; right;
              apply list_elem_of_singleton; reflexivity].
    intros _. exists v, s. split; [exists a; tauto |].
    destruct (Hinv k) as [_ Hk]. destruct (Hk a Ha) as [Hin Hout].
    destruct (decide (k ∈ ks)) as [Hks | Hks].
    + destruct (Hin Hks) as (v0 & s0 & _ & ->). simpl.
      f_equal. apply (fixed_item_again v s v0 s0 a).
    + rewrite (Hout Hks). reflexivity.
  - rewrite lookup_insert_ne by congruence.
    destruct (Hinv k') as [Hnone Hsome]. split; [exact Hnone |].
    intros a Ha. destruct (Hsome a Ha) as [Hin Hout]. split.
    + intros Hk'. apply Hin. apply elem_of_app in Hk'.
      destruct Hk' as [Hk' | Hk']; [exact Hk' |].
      apply list_elem_of_singleton in Hk'. congruence.
    + intros Hk'. apply Hout. intros Hks. apply Hk', elem_of_app. tauto.
Qed.

Lemma fixed_at_all t (fails : nat -> bool) (rqs : list request) :
  (forall m, fails m = false) -> Forall (fixes t) rqs ->
  forall n ks tc,
    fixed_at t ks tc ->
    fixed_at t (ks ++ request_keys rqs) (table_after_all fails n rqs tc).
Proof.
  intros Hfails Hrqs. induction Hrqs as [| rq rest Hrq Hrest IH];
    intros n ks tc Hinv.
  - unfold request_keys. simpl. rewrite app_nil_r. exact Hinv.
  - pose proof Hrq as (k & v & s & Hkey & _).
    assert (Hok : update_ok fails n rq = true).
    { unfold update_ok. rewrite Hfails, Hkey. reflexivity. }
    assert (Hkeys : request_keys (rq :: rest) = k :: request_keys rest).
    { unfold request_keys. simpl. rewrite Hkey. reflexivity. }
    cbn [table_after_all]. rewrite Hok, Hkeys.
    replace (ks ++ k :: request_keys rest)%list
      with ((ks ++ [k]) ++ request_keys rest)%list
      by (rewrite <- app_assoc; reflexivity).
    apply IH. apply fixed_at_step; assumption.
Qed.

(** The requests of a plan fix stored injections, and they address every
    stored injection that needs a fix. *)
Lemma planned_requests_fix t (changes : list change) (clock : nat -> string) :
  (forall c, In c changes ->
     exists k, ch_PK c = PStr k.1 /\ ch_SK c = PStr k.2 /\
               needs_fix t k (ch_correct_vial c)) ->
  forall n, Forall (fixes t) (requests_of clock n changes).
Proof.
  induction changes as [| c rest IH]; intros Hsound n; simpl; constructor.
  - destruct (Hsound c (or_introl eq_refl)) as (k & Hpk & Hsk & Hfix).
    exact (request_of_fixes t c (clock n) k Hpk Hsk Hfix).
  - apply IH. intros c' Hc'. apply Hsound. right. exact Hc'.
Qed.

Lemma planned_request_keys (changes : list change) (clock : nat -> string) k :
  (forall c, In c changes ->
     exists k', ch_PK c = PStr k'.1 /\ ch_SK c = PStr k'.2) ->
  forall n,
    k ∈ request_keys (requests_of clock n changes) <->
    exists c, In c changes /\ ch_PK c = PStr k.1 /\ ch_SK c = PStr k.2.
Proof.
  induction changes as [| c rest IH]; intros Hkeys n.
  - unfold request_keys. simpl. split.
    + intros Hk. apply elem_of_nil in Hk. destruct Hk.
    + intros (c & [] & _).
  - destruct (Hkeys c (or_introl eq_refl)) as ([pk sk] & Hpk & Hsk).
    simpl in Hpk, Hsk.
    assert (Hhead : request_keys (requests_of clock n (c :: rest))
                    = (pk, sk) :: request_keys (requests_of clock (S n) rest)).
    { unfold request_keys, request_key. simpl. rewrite Hpk, Hsk. reflexivity. }
    rewrite Hhead, elem_of_cons, (IH (fun c' Hc' => Hkeys c' (or_intror Hc'))).
    destruct k as [kp ks]. simpl. split.
    + intros [[= -> ->] | (c' & Hc' & Hrest)].
      * exists c. tauto.
      * exists c'. tauto.
    + intros (c' & [<- | Hc'] & Hpk' & Hsk').
      * left. congruence.
      * right. exists c'. tauto.
Qed.

Lemma planned_keys_need_fix t (injections : list dict) (out : list line)
  (changes : list change) (clock : nat -> string) (n : nat) k :
  table_injections t = Ok injections ->
  plan_changes injections = (out, Ok changes) ->
  k ∈ request_keys (requests_of clock n changes) <-> exists v, needs_fix t k v.
Proof.
  intros Hload Hplan.
  rewrite planned_request_keys.
  - split.
    + intros (c & Hc & Hpk & Hsk).
      destruct (planned_changes_sound t _ _ _ c Hload Hplan Hc)
        as ([pk sk] & Hpk' & Hsk' & Hfix).
      exists (ch_correct_vial c). destruct k as [kp ks]. simpl in *.
      replace kp with pk by congruence. replace ks with sk by congruence.
      exact Hfix.
    + intros (v & Hfix).
      destruct (planned_changes_complete t _ _ _ k v Hload Hplan Hfix)
        as (c & Hc & Hpk & Hsk & _).
      exists c. tauto.
  - intros c Hc.
    destruct (planned_changes_sound t _ _ _ c Hload Hplan Hc)
      as (k' & Hpk & Hsk & _).
    exists k'. tauto.
Qed.

(** What a live run that completes has done: it has planned the changes of
    the table it found and issued their requests, in order. *)
Lemma main_live_inv (w w' : world) :
  main false w = (Ok tt, w') ->
  exists injections out changes,
    table_injections (w_table w) = Ok injections /\
    plan_changes injections = (out, Ok changes) /\
    let n := length (w_updates w) in
    let rqs := requests_of (w_clock w) n changes in
    w_updates w' = (w_updates w ++ rqs)%list /\
    w_table w' = table_after_all (w_update_fails w) n rqs (w_table w).
Proof.
  unfold main, bindM at 1.
  destruct (load_records w) as [[injections | e] w1] eqn:Hload; [| discriminate].
  apply load_records_ok in Hload.
  destruct Hload as (Hload & Ht1 & Hu1 & Hf1 & _ & Hc1 & _).
  unfold reconcile.
  destruct (report_current injections) as [out1 r1].
  destruct (plan_changes injections) as [out2 r2] eqn:Hplan.
  unfold bindM at 1. rewrite printing_run.
  destruct r1 as [[] | e]; [| discriminate].
  unfold bindM at 1. simpl.
  unfold bindM at 1. rewrite printing_run.
  destruct r2 as [changes | e]; [| discriminate].
  intros Hrun. exists injections, out2, changes.
  split; [exact Hload |]. split; [exact Hplan |].
  destruct changes as [| c cs].
  { simpl in Hrun. injection Hrun as <-. simpl.
    rewrite app_nil_r. split; congruence. }
  cbv beta iota in Hrun. remember (c :: cs) as changes eqn:Hchanges.
  clear Hchanges c cs.
  revert Hrun. destruct (report_expected _ injections) as [out3 r3].
  unfold bindM at 1. rewrite printing_run.
  destruct r3 as [[] | e]; [| discriminate].
  unfold bindM at 1. simpl. unfold bindM at 1.
  match goal with
  | |- context [apply_changes changes 0 0 ?w0] =>
    pose proof (apply_changes_spec changes w0 0 0) as Hspec;
    destruct (apply_changes changes 0 0 w0) as [[counts | e] w2]
  end; [| discriminate].
  simpl in Hspec. intros [= <-]. simpl.
  destruct Hspec as (_ & Hu & Ht & _).
  - rewrite Forall_forall. intros c' Hc'. apply list_elem_of_In in Hc'.
    destruct (planned_changes_sound (w_table w) _ _ _ c' Hload Hplan Hc')
      as (k & _ & -> & _).
    reflexivity.
  - rewrite Hu, Ht, Hu1, Hf1, Hc1, Ht1. split; reflexivity.
Qed.

Lemma needs_change_false (current : value) (v : string) :
  needs_change current v = false -> current = PStr v.
Proof.
  unfold needs_change.
  destruct (is_none current); [discriminate |].
  destruct (mentions_dry_stock current); [discriminate |].
  destruct current as [| b | z | f | s | a]; simpl; try discriminate.
  destruct (String.eqb_spec s v) as [-> | _]; [reflexivity | discriminate].
Qed.

Lemma fixed_item_lookup (v s : string) (a : item) (name : string) :
  name <> "vialId" -> name <> "updatedAt" ->
  fixed_item v s a !! name = a !! name.
Proof.
  intros Hv Hu. unfold fixed_item.
  rewrite !lookup_insert_ne by congruence. reflexivity.
Qed.

Lemma fixed_item_parses (k : string * string) (v s : string) (a : item) :
  map_Forall (fun _ x => parses x) (item_of_entry (k, a)) ->
  map_Forall (fun _ x => parses x) (item_of_entry (k, fixed_item v s a)).
Proof.
  intros Hall name x. unfold item_of_entry in *. simpl in *.
  destruct (decide (name = "PK")) as [-> | Hpk].
  { rewrite lookup_insert_eq. intros [= <-]. reflexivity. }
  rewrite lookup_insert_ne by congruence.
  destruct (decide (name = "SK")) as [-> | Hsk].
  { rewrite lookup_insert_eq. intros [= <-]. reflexivity. }
  rewrite lookup_insert_ne by congruence.
  unfold fixed_item.
  destruct (decide (name = "vialId")) as [-> | Hv].
  { rewrite lookup_insert_eq. intros [= <-]. reflexivity. }
  rewrite lookup_insert_ne by congruence.
  destruct (decide (name = "updatedAt")) as [-> | Hu].
  { rewrite lookup_insert_eq. intros [= <-]. reflexivity. }
  rewrite lookup_insert_ne by congruence.
  intros Hx. apply (Hall name).
  rewrite !lookup_insert_ne by congruence. exact Hx.
Qed.

Lemma fixed_item_is_injection (k : string * string) (v s : string) (a : item) :
  is_injection k (fixed_item v s a) <-> is_injection k a.
Proof.
  unfold is_injection, has_entity_type, item_of_entry. simpl.
  rewrite !(lookup_insert_ne _ _ "entityType") by discriminate.
  rewrite fixed_item_lookup by discriminate. reflexivity.
Qed.

(** The state of a stored injection once the planned requests have all
    gone through: its attributes parse, the planner has nothing left to
    change on it, the vial the policy gives for its timestamp is its
    [vialId], and it is untouched if the policy gives none. *)
Lemma reconciled_entry t (injections : list dict) (out : list line)
  (changes : list change) (fails : nat -> bool) (clock : nat -> string)
  (n : nat) k (a' : item) :
  table_injections t = Ok injections ->
  plan_changes injections = (out, Ok changes) ->
  (forall m, fails m = false) ->
  table_after_all fails n (requests_of clock n changes) t !! k = Some a' ->
  is_injection k a' ->
  map_Forall (fun _ x => parses x) (item_of_entry (k, a')) /\
  (exists o, plan_injection (entry_injection k a') = Ok (None, o)) /\
  (forall v,
     get_correct_vial_for_date
       (py_get (entry_injection k a') "timestamp" (PStr "")) = Ok (Some v) ->
     entry_injection k a' !! "vialId" = Some (PStr v)) /\
  (get_correct_vial_for_date
     (py_get (entry_injection k a') "timestamp" (PStr "")) = Ok None ->
   t !! k = Some a').
Proof.
  intros Hload Hplan Hfails Hk' Hkind'.
  pose proof (fixed_at_all t fails (requests_of clock n changes) Hfails
                (planned_requests_fix t changes clock
                   (fun c Hc =>
                      planned_changes_sound t injections out changes c
                        Hload Hplan Hc) n)
                n [] t (fixed_at_start t)) as Hinv.
  simpl in Hinv. destruct (Hinv k) as [Hnone Hsome].
  destruct (t !! k) as [a |] eqn:Hka;
    [| rewrite (Hnone eq_refl) in Hk'; discriminate].
  destruct (Hsome a eq_refl) as [Hin Hout].
  destruct (table_injections_inv t injections Hload) as [Hinj Hparse].
  destruct (plan_changes_inv injections out changes Hplan) as [Hok Hchg].
  destruct (decide (k ∈ request_keys (requests_of clock n changes)))
    as [Hks | Hks].
  - destruct (Hin Hks) as (v & s & Hfix & Hfixed).
    rewrite Hfixed in Hk'. injection Hk' as <-.
    apply fixed_item_is_injection in Hkind'.
    destruct Hfix as (a0 & Ha0 & _ & Hv & Hn).
    rewrite Hka in Ha0. injection Ha0 as <-.
    assert (Hts : py_get (entry_injection k (fixed_item v s a)) "timestamp"
                    (PStr "")
                  = py_get (entry_injection k a) "timestamp" (PStr "")).
    { unfold py_get. rewrite !entry_injection_other by discriminate.
      rewrite fixed_item_lookup by discriminate. reflexivity. }
    assert (Hvial : entry_injection k (fixed_item v s a) !! "vialId"
                    = Some (PStr v)).
    { rewrite entry_injection_other by discriminate.
      unfold fixed_item. rewrite lookup_insert_eq. reflexivity. }
    rewrite Hts, Hv.
    split; [apply fixed_item_parses, Hparse; assumption |].
    split; [| split; [| discriminate]].
    + exists []. rewrite (plan_injection_some _ v) by (rewrite Hts; exact Hv).
      unfold py_get at 1. rewrite Hvial. simpl.
      destruct (needs_change (PStr v) v) eqn:Hneeds; [| reflexivity].
      apply (needs_change_iff _ v (get_correct_vial_policy _ _ Hv)) in Hneeds.
      exfalso. apply Hneeds. reflexivity.
    + intros v' [= <-]. exact Hvial.
  - rewrite (Hout Hks) in Hk'. injection Hk' as <-.
    assert (Hno : forall v, ~ needs_fix t k v).
    { intros v Hfix. apply Hks.
      apply (planned_keys_need_fix t injections out changes clock n k
               Hload Hplan).
      exists v. exact Hfix. }
    split; [apply Hparse; assumption |].
    assert (Hnone_needed : forall v,
              get_correct_vial_for_date
                (py_get (entry_injection k a) "timestamp" (PStr ""))
                = Ok (Some v) ->
              needs_change (py_get (entry_injection k a) "vialId" PNone) v
                = false).
    { intros v Hv.
      destruct (needs_change _ v) eqn:Hneeds; [| reflexivity].
      exfalso. apply (Hno v). exists a. tauto. }
    split; [| split; [| tauto]].
    + destruct (get_correct_vial_for_date
                  (py_get (entry_injection k a) "timestamp" (PStr "")))
        as [[v |] | e] eqn:Hv.
      * exists []. rewrite (plan_injection_some _ v Hv).
        rewrite (Hnone_needed v eq_refl). reflexivity.
      * eexists. apply plan_injection_none. exact Hv.
      * exfalso. rewrite Forall_forall in Hok.
        assert (Hi : In (entry_injection k a) injections)
          by (apply Hinj; exists k, a; tauto).
        apply list_elem_of_In, Hok in Hi.
        unfold plan_injection in Hi. rewrite Hv in Hi. discriminate Hi.
    + intros v Hv. apply Hnone_needed, needs_change_false in Hv.
      unfold py_get in Hv.
      destruct (entry_injection k a !! "vialId") as [x |]; simpl in Hv;
        [congruence | discriminate].
Qed.

Lemma get_correct_vial_truthy (x : value) (r : option string) :
  py_truthy x = true -> get_correct_vial_for_date x = Ok r ->
  exists v, r = Some v.
Proof.
  unfold get_correct_vial_for_date. intros ->. simpl.
  destruct (py_slice_to 10 x) as [p | e]; simpl; [| discriminate].
  destruct (py_lt_str p "2025-09-13") as [[] | e]; simpl;
    [intros [= <-]; eauto | | discriminate].
  destruct (py_lt_str p "2025-10-29") as [[] | e]; simpl;
    [intros [= <-]; eauto | intros [= <-]; eauto | discriminate].
Qed.

(** The change records of a plan carry the string sort keys of the table. *)
Lemma planned_changes_sort_keys t (injections : list dict) (out : list line)
  (changes : list change) :
  table_injections t = Ok injections ->
  plan_changes injections = (out, Ok changes) ->
  Forall (fun c => isinstance_str (ch_SK c) = true) changes.
Proof.
  intros Hload Hplan. rewrite Forall_forall. intros c Hc.
  apply list_elem_of_In in Hc.
  destruct (planned_changes_sound t _ _ _ c Hload Hplan Hc) as (k & _ & -> & _).
  reflexivity.
Qed.

(** The table once every planned request has gone through loads, and its
    plan is empty. *)
Lemma reconciled_table_plan t (injections : list dict) (out : list line)
  (changes : list change) (fails : nat -> bool) (clock : nat -> string)
  (n : nat) :
  table_injections t = Ok injections ->
  plan_changes injections = (out, Ok changes) ->
  (forall m, fails m = false) ->
  exists injections' out',
    table_injections (table_after_all fails n (requests_of clock n changes) t)
      = Ok injections' /\
    plan_changes injections' = (out', Ok []).
Proof.
  intros Hload Hplan Hfails.
  set (t' := table_after_all fails n (requests_of clock n changes) t).
  assert (Hitems : Forall
            (fun it => parse_item it = Ok (parse_total <$> it) /\
                       exists o, plan_injection (parse_total <$> it)
                                 = Ok (None, o))
            (List.filter (has_entity_type "INJECTION")
                         (item_of_entry <$> map_to_list t'))).
  { rewrite Forall_forall. intros it Hit.
    apply list_elem_of_In, List.filter_In in Hit. destruct Hit as [Hit Hkind].
    apply list_elem_of_In, list_elem_of_fmap in Hit.
    destruct Hit as ([k a'] & -> & Hka). apply elem_of_map_to_list in Hka.
    destruct (reconciled_entry t injections out changes fails clock n k a'
                Hload Hplan Hfails Hka Hkind) as (Hparse & Hnone & _).
    split; [apply parse_item_ok; exact Hparse | exact Hnone]. }
  exists ((fun it : item => parse_total <$> it) <$>
            List.filter (has_entity_type "INJECTION")
                        (item_of_entry <$> map_to_list t')).
  destruct (plan_changes_none
              ((fun it : item => parse_total <$> it) <$>
                 List.filter (has_entity_type "INJECTION")
                             (item_of_entry <$> map_to_list t')))
    as [out' Hout'].
  { apply Forall_fmap. eapply Forall_impl; [exact Hitems |].
    intros it [_ Hnone]. exact Hnone. }
  exists out'. split; [| exact Hout'].
  unfold table_injections. apply map_result_ok.
  eapply Forall_impl; [exact Hitems |]. intros it [Hparse _]. exact Hparse.
Qed.

(** C4: when the change-set planned for a table is applied and every
    update goes through, the table loads again and the planner finds
    nothing to change in it. *)
Theorem plan_apply_idempotent (w : world) (injections : list dict)
  (out : list line) (changes : list change) :
  table_injections (w_table w) = Ok injections ->
  plan_changes injections = (out, Ok changes) ->
  (forall m, w_update_fails w m = false) ->
  exists counts w' injections' out',
    apply_changes changes 0 0 w = (Ok counts, w') /\
    table_injections (w_table w') = Ok injections' /\
    plan_changes injections' = (out', Ok []).
Proof.
  intros Hload Hplan Hfails.
  destruct (apply_changes_spec changes w 0 0
              (planned_changes_sort_keys _ _ _ _ Hload Hplan))
    as (Hr & _ & Ht & _).
  destruct (apply_changes changes 0 0 w) as [r w'] eqn:Happly.
  simpl in Hr, Ht. subst r.
  destruct (reconciled_table_plan (w_table w) injections out changes
              (w_update_fails w) (w_clock w) (length (w_updates w))
              Hload Hplan Hfails) as (injections' & out' & Hload' & Hplan').
  rewrite <- Ht in Hload'.
  eexists _, w', injections', out'. split; [reflexivity | tauto].
Qed.

(** C5, as the code has it: after a live run that completes and in which
    every update goes through, every stored injection with a non-empty
    timestamp has the vial of the policy for that timestamp as its
    [vialId], which is no dry-stock vial; an injection whose timestamp is
    empty or missing is left as it was. *)
Theorem live_run_reconciles_dated_injections (w w' : world) :
  (forall m, w_update_fails w m = false) ->
  main false w = (Ok tt, w') ->
  forall (k : string * string) (a' : item),
    w_table w' !! k = Some a' -> is_injection k a' ->
    exists inj,
      parse_item (item_of_entry (k, a')) = Ok inj /\
      (py_truthy (py_get inj "timestamp" (PStr "")) = true ->
       exists v,
         get_correct_vial_for_date (py_get inj "timestamp" (PStr ""))
           = Ok (Some v) /\
         inj !! "vialId" = Some (PStr v) /\
         In v policy_vials /\ ~ In v DRY_STOCK_VIALS) /\
      (py_truthy (py_get inj "timestamp" (PStr "")) = false ->
       w_table w !! k = Some a').
Proof.
  intros Hfails Hrun k a' Hka Hkind.
  destruct (main_live_inv w w' Hrun)
    as (injections & out & changes & Hload & Hplan & _ & Ht).
  simpl in Ht. rewrite Ht in Hka.
  destruct (reconciled_entry _ _ _ _ _ _ _ k a' Hload Hplan Hfails Hka Hkind)
    as (Hparse & [o Hnone] & Hvial & Hskip).
  exists (entry_injection k a').
  split; [apply parse_item_ok; exact Hparse |]. split.
  - intros Htruthy.
    destruct (get_correct_vial_for_date
                (py_get (entry_injection k a') "timestamp" (PStr "")))
      as [r | e] eqn:Hv.
    + destruct (get_correct_vial_truthy _ r Htruthy Hv) as [v ->].
      exists v. split; [reflexivity |]. split; [apply Hvial; reflexivity |].
      pose proof (get_correct_vial_policy _ _ Hv) as Hp.
      split; [exact Hp | exact (policy_vials_not_dry v Hp)].
    + unfold plan_injection in Hnone. rewrite Hv in Hnone. discriminate Hnone.
  - intros Hfalsy. apply Hskip, get_correct_vial_falsy. exact Hfalsy.
Qed.

(** C7: the apply loop issues one update per change record, in the order
    of the change-set, whether or not earlier updates failed; it returns,
    the two counts add up to the size of the change-set, the failures are
    the calls that did not go through, and the table holds the effect of
    every call that did. *)
Theorem apply_isolates_failures (changes : list change) (w : world) :
  Forall (fun c => isinstance_str (ch_SK c) = true) changes ->
  let n := length (w_updates w) in
  let rqs := requests_of (w_clock w) n changes in
  exists success_count error_count w',
    apply_changes changes 0 0 w = (Ok (success_count, error_count), w') /\
    success_count + error_count = length changes /\
    success_count = count_ok (w_update_fails w) n rqs /\
    length rqs = length changes /\
    w_updates w' = (w_updates w ++ rqs)%list /\
    w_table w' = table_after_all (w_update_fails w) n rqs (w_table w).
Proof.
  intros Hsk n rqs.
  destruct (apply_changes_spec changes w 0 0 Hsk) as (Hr & Hu & Ht & _).
  fold n in Hr, Hu, Ht. fold rqs in Hr, Hu, Ht.
  assert (Hlen : length rqs = length changes)
    by apply length_requests_of.
  pose proof (count_ok_le (w_update_fails w) n rqs) as Hle.
  exists (count_ok (w_update_fails w) n rqs),
         (length changes - count_ok (w_update_fails w) n rqs),
         (apply_changes changes 0 0 w).2.
  split; [rewrite (surjective_pairing (apply_changes changes 0 0 w)), Hr;
          reflexivity |].
  repeat split; try assumption. lia.
Qed.

End LiveRun.

(** ** Scanning and marshalling *)

Section Scanning.

Context `{PyBuiltins}.

Lemma set_scans_same (w : world) : set_scans (w_scans w) w = w.
Proof. destruct w. reflexivity. Qed.

(** The loop of [scan_all_items] when no call fails. *)
Lemma scan_loop_run (kind : string) (pages : list (list item))
  (acc : list item) (w : world) :
  (forall n, w_scan_fails w n = false) ->
  scan_loop kind pages acc w =
    (Ok (acc ++ List.filter (has_entity_type kind) (concat pages))%list,
     set_scans (w_scans w + length pages) w).
Proof.
  revert acc w. induction pages as [| page rest IH]; intros acc w Hfails; simpl.
  - unfold retM. rewrite app_nil_r, Nat.add_0_r, set_scans_same. reflexivity.
  - unfold bindM, dynamo_scan. rewrite Hfails.
    rewrite (IH _ (set_scans (S (w_scans w)) w)) by exact Hfails.
    rewrite List.filter_app, app_assoc. unfold set_scans. simpl.
    repeat f_equal. lia.
Qed.

(** X1: when no [scan] call fails, [scan_all_items] returns every item of
    the table with the requested entity type, whatever the size of the
    responses, after one call per response and at least one call. *)
Theorem scan_all_items_complete (kind : string) (w : world) :
  (forall n, w_scan_fails w n = false) ->
  scan_all_items kind w =
    (Ok (List.filter (has_entity_type kind) (table_items w)),
     set_scans (w_scans w + length (table_pages w)) w) /\
  1 <= length (table_pages w).
Proof.
  intros Hfails. split.
  - unfold scan_all_items. rewrite (scan_loop_run _ _ _ _ Hfails).
    rewrite concat_scan_pages. reflexivity.
  - unfold table_pages.
    generalize (S (w_page w)) at 1. generalize (@nil item).
    induction (table_items w) as [| x rest IH]; intros cur room; simpl; [lia |].
    destruct room; simpl; [lia | apply IH].
Qed.

Lemma scan_loop_fails_fast (kind : string) (pages : list (list item))
  (acc : list item) (w : world) (i : nat) :
  i < length pages ->
  w_scan_fails w (w_scans w + i) = true ->
  (scan_loop kind pages acc w).1 = Raise ClientError.
Proof.
  revert acc w i. induction pages as [| page rest IH]; intros acc w i Hi Hfail;
    simpl in *; [lia |].
  unfold bindM, dynamo_scan.
  destruct (w_scan_fails w (w_scans w)) eqn:Hnow; [reflexivity |].
  destruct i as [| j]; [rewrite Nat.add_0_r, Hnow in Hfail; discriminate |].
  apply (IH _ (set_scans (S (w_scans w)) w) j); [lia |].
  simpl. rewrite <- Hfail. f_equal. lia.
Qed.

(** X2: when one of the [scan] calls fails, [scan_all_items] raises: the
    items of the responses before it are not returned, and the table is
    left as it was. *)
Theorem scan_all_items_fails_fast (kind : string) (w : world) (i : nat) :
  i < length (table_pages w) ->
  w_scan_fails w (w_scans w + i) = true ->
  (scan_all_items kind w).1 = Raise ClientError /\
  w_table (scan_all_items kind w).2 = w_table w /\
  w_updates (scan_all_items kind w).2 = w_updates w.
Proof.
  intros Hi Hfail. split.
  - unfold scan_all_items. exact (scan_loop_fails_fast _ _ _ _ i Hi Hfail).
  - destruct (read_only_scan_all kind w) as (Ht & Hu & _). tauto.
Qed.

Lemma parse_raises_value_error (a : attr) (e : exn) :
  parse_dynamo_value a = Raise e -> e = ValueError.
Proof.
  destruct a; simpl; try discriminate.
  destruct (float_of_string n); simpl; [discriminate | congruence].
Qed.

Lemma parse_entries_raises_value_error (l : list (string * attr)) (e : exn) :
  parse_entries l = Raise e -> e = ValueError.
Proof.
  induction l as [| [k a] rest IH]; simpl; [discriminate |].
  destruct (parse_dynamo_value a) as [v | e'] eqn:Ha; simpl.
  - destruct (parse_entries rest); simpl; [discriminate |].
    intros [= <-]. apply IH. reflexivity.
  - intros [= <-]. exact (parse_raises_value_error a e' Ha).
Qed.

(** X3: [parse_item] returns a dict with the attribute names of the item,
    each with its parsed value, as soon as every number attribute holds a
    number; it raises [ValueError] when one does not. *)
Theorem parse_item_keeps_names (it : item) :
  ((forall k n, it !! k = Some (AN n) -> is_Some (float_of_string n)) ->
   exists d,
     parse_item it = Ok d /\ dom d = dom it /\
     forall k a, it !! k = Some a ->
       exists v, parse_dynamo_value a = Ok v /\ d !! k = Some v) /\
  (forall k n, it !! k = Some (AN n) -> float_of_string n = None ->
   parse_item it = Raise ValueError).
Proof.
  split.
  - intros Hnum.
    assert (Hall : map_Forall (fun _ a => parses a) it).
    { intros k a Hka. unfold parses.
      destruct a; try reflexivity.
      destruct (Hnum k n Hka) as [x Hx]. simpl. rewrite Hx. reflexivity. }
    exists (parse_total <$> it). split; [exact (parse_item_ok it Hall) |].
    split; [apply dom_fmap_L |].
    intros k a Hka. exists (parse_total a).
    split; [exact (parse_total_ok a (Hall k a Hka)) |].
    rewrite lookup_fmap, Hka. reflexivity.
  - intros k n Hka Hn.
    destruct (parse_item it) as [d | e] eqn:Hparse.
    + apply parse_item_inv in Hparse. destruct Hparse as [Hall _].
      specialize (Hall k (AN n) Hka). unfold parses in Hall. simpl in Hall.
      rewrite Hn in Hall. discriminate Hall.
    + f_equal. unfold parse_item in Hparse.
      destruct (parse_entries (map_to_list it)) as [l | e'] eqn:Hl;
        simpl in Hparse; [discriminate |].
      injection Hparse as <-.
      exact (parse_entries_raises_value_error _ e' Hl).
Qed.


End Scanning.

(** ** More on the policy and the planner *)

Section PlannerEdges.

Context `{PyBuiltins}.

Lemma leb_ltb_trans (a b c : string) :
  String.leb a b = true -> String.ltb b c = true -> String.ltb a c = true.
Proof.
  unfold String.leb. destruct (String.compare a b) eqn:Hab; try discriminate.
  - apply String.compare_eq_iff in Hab. subst b. tauto.
  - intros _ Hbc. apply (ltb_trans a b c); [| exact Hbc].
    unfold String.ltb. rewrite Hab. reflexivity.
Qed.

(** X5: the policy is monotone: of two timestamps, the one with the later
    date never gets the earlier vial (the vial identifiers are in the order
    of their windows). *)
Theorem get_correct_vial_monotone (t1 t2 : string) :
  t1 <> "" -> t2 <> "" ->
  String.leb (substring 0 10 t1) (substring 0 10 t2) = true ->
  exists v1 v2,
    get_correct_vial_for_date (PStr t1) = Ok (Some v1) /\
    get_correct_vial_for_date (PStr t2) = Ok (Some v2) /\
    String.leb v1 v2 = true.
Proof.
  intros H1 H2 Hle.
  rewrite (get_correct_vial_str t1 H1), (get_correct_vial_str t2 H2).
  eexists _, _. split; [reflexivity |]. split; [reflexivity |].
  destruct (String.ltb (substring 0 10 t2) "2025-09-13") eqn:Ha.
  { rewrite (leb_ltb_trans _ _ _ Hle Ha). reflexivity. }
  destruct (String.ltb (substring 0 10 t2) "2025-10-29") eqn:Hb.
  { rewrite (leb_ltb_trans _ _ _ Hle Hb).
    destruct (String.ltb (substring 0 10 t1) "2025-09-13"); reflexivity. }
  destruct (String.ltb (substring 0 10 t1) "2025-09-13"); [reflexivity |].
  destruct (String.ltb (substring 0 10 t1) "2025-10-29"); reflexivity.
Qed.

(** The policy on a value that is not falsy and no string. *)
Lemma get_correct_vial_type_error (x : value) :
  py_truthy x = true -> isinstance_str x = false ->
  get_correct_vial_for_date x = Raise TypeError.
Proof.
  intros Ht Hs. unfold get_correct_vial_for_date. rewrite Ht.
  destruct x; try discriminate Hs; reflexivity.
Qed.

Lemma plan_changes_raises (injections : list dict) (inj : dict) :
  In inj injections -> is_ok (plan_injection inj) = false ->
  is_ok (plan_changes injections).2 = false.
Proof.
  induction injections as [| i rest IH]; intros Hin Hraise; simpl in *;
    [destruct Hin |].
  destruct (plan_injection i) as [[oc o] | e] eqn:Hi; [| reflexivity].
  destruct Hin as [-> | Hin]; [rewrite Hi in Hraise; discriminate |].
  specialize (IH Hin Hraise).
  destruct (plan_changes rest) as [out' [cs | e]]; simpl in *;
    [discriminate | reflexivity].
Qed.

(** X6: a timestamp that is a non-zero number, [True] or a tagged dict
    makes the policy raise [TypeError], and the planner then raises
    instead of returning a change-set. *)
Theorem planner_aborts_on_non_string_timestamp (injections : list dict)
  (inj : dict) :
  In inj injections ->
  py_truthy (py_get inj "timestamp" (PStr "")) = true ->
  isinstance_str (py_get inj "timestamp" (PStr "")) = false ->
  get_correct_vial_for_date (py_get inj "timestamp" (PStr ""))
    = Raise TypeError /\
  plan_injection inj = Raise TypeError /\
  exists e, (plan_changes injections).2 = Raise e.
Proof.
  intros Hin Ht Hs.
  pose proof (get_correct_vial_type_error _ Ht Hs) as Hv.
  assert (Hp : plan_injection inj = Raise TypeError).
  { unfold plan_injection. rewrite Hv. reflexivity. }
  split; [exact Hv |]. split; [exact Hp |].
  assert (Hr : is_ok (plan_changes injections).2 = false).
  { apply (plan_changes_raises injections inj Hin). rewrite Hp. reflexivity. }
  destruct (plan_changes injections).2 as [cs | e]; [discriminate | eauto].
Qed.

(** X7: the planner reads the key of an injection only to record a
    change: an injection already on its vial is passed over even without
    [PK] or [SK], and one that needs a change raises [KeyError] when either
    is missing. *)
Theorem planner_reads_keys_only_for_changes (inj : dict) (v : string) :
  get_correct_vial_for_date (py_get inj "timestamp" (PStr "")) = Ok (Some v) ->
  (needs_change (py_get inj "vialId" PNone) v = false ->
   plan_injection inj = Ok (None, [])) /\
  (needs_change (py_get inj "vialId" PNone) v = true ->
   inj !! "PK" = None \/ inj !! "SK" = None ->
   plan_injection inj = Raise KeyError).
Proof.
  intros Hv. rewrite (plan_injection_some inj v Hv). split.
  - intros ->. reflexivity.
  - intros -> Hmissing. unfold py_getitem.
    destruct (inj !! "PK"); simpl; [| reflexivity].
    destruct Hmissing as [Hpk | Hsk]; [discriminate | rewrite Hsk; reflexivity].
Qed.

Lemma prefix_app (d q : string) : String.prefix d (d ++ q) = true.
Proof.
  induction d as [| c d IH]; simpl; [destruct q; reflexivity |].
  destruct (ascii_dec c c) as [_ | Hne]; [exact IH | congruence].
Qed.

Lemma str_contains_prefix (d h : string) :
  String.prefix d h = true -> str_contains d h = true.
Proof. destruct h; simpl; intros ->; reflexivity. Qed.

Lemma str_contains_app (d p q : string) : str_contains d (p ++ d ++ q) = true.
Proof.
  induction p as [| c p IH].
  - change (str_contains d (d ++ q) = true).
    apply str_contains_prefix, prefix_app.
  - change (str_contains d (String c (p ++ d ++ q)) = true).
    cbn [str_contains]. rewrite IH. apply orb_true_r.
Qed.

(** X8: the dry-stock test is a substring test: a current vial whose
    identifier contains a dry-stock identifier anywhere is taken for a
    dry-stock vial and always needs a change. *)
Theorem dry_stock_matched_by_substring (d p q v : string) :
  In d DRY_STOCK_VIALS ->
  mentions_dry_stock (PStr (p ++ d ++ q)) = true /\
  needs_change (PStr (p ++ d ++ q)) v = true.
Proof.
  intros Hd.
  assert (Hm : mentions_dry_stock (PStr (p ++ d ++ q)) = true).
  { unfold mentions_dry_stock. apply existsb_exists. exists d.
    split; [exact Hd | apply str_contains_app]. }
  split; [exact Hm |]. unfold needs_change. simpl. rewrite Hm. reflexivity.
Qed.

End PlannerEdges.

(** ** More on the apply executor and the run *)

Section RunEdges.

Context `{PyBuiltins}.

Implicit Types (t : gmap (string * string) item) (k : string * string).

Lemma apply_changes_stops (good : list change) (c : change)
  (rest : list change) (w : world) (s0 e0 : nat) :
  Forall (fun g => isinstance_str (ch_SK g) = true) good ->
  isinstance_str (ch_SK c) = false ->
  (apply_changes (good ++ c :: rest) s0 e0 w).1 = Raise TypeError /\
  w_updates (apply_changes (good ++ c :: rest) s0 e0 w).2 =
    (w_updates w
       ++ requests_of (w_clock w) (length (w_updates w)) good)%list.
Proof.
  intros Hgood Hc. revert w s0 e0.
  induction Hgood as [| g gs Hg Hgs IH]; intros w s0 e0.
  - simpl. unfold bindM, apply_change, bindM, liftM.
    destruct (ch_SK c); try discriminate Hc; simpl;
      rewrite app_nil_r; split; reflexivity.
  - destruct (ch_SK g) as [| | | | sk |] eqn:Hsk; try discriminate Hg.
    destruct (apply_change_spec g w sk Hsk) as (Hr & Hu & _ & _ & Hk & _).
    cbn [app apply_changes requests_of]. unfold bindM.
    destruct (apply_change g w) as [r w1]. simpl in Hr, Hu, Hk. subst r.
    assert (Hn : length (w_updates w1) = S (length (w_updates w))).
    { rewrite Hu, length_app. simpl. lia. }
    destruct (update_ok _ _ _);
      [destruct (IH w1 (S s0) e0) as [Hr' Hu']
      | destruct (IH w1 s0 (S e0)) as [Hr' Hu']];
      rewrite Hr', Hu', Hn, Hk, Hu, <- app_assoc; split; reflexivity.
Qed.

(** X9: the slice of the sort key is outside the [try]: at the first
    change record whose [SK] is no string the apply loop raises
    [TypeError]; the records before it have been attempted, that record
    and those after it have not. *)
Theorem apply_aborts_on_non_string_sort_key (good : list change) (c : change)
  (rest : list change) (w : world) :
  Forall (fun g => isinstance_str (ch_SK g) = true) good ->
  isinstance_str (ch_SK c) = false ->
  (apply_changes (good ++ c :: rest) 0 0 w).1 = Raise TypeError /\
  w_updates (apply_changes (good ++ c :: rest) 0 0 w).2 =
    (w_updates w
       ++ requests_of (w_clock w) (length (w_updates w)) good)%list.
Proof. apply apply_changes_stops. Qed.

Lemma partly_fixed_start t : partly_fixed t t.
Proof. intros k. split; [tauto | intros a Ha; left; exact Ha]. Qed.

(** Whatever the calls that fail, the requests of a plan change nothing
    but injections that need a fix. *)
Lemma partly_fixed_all t (fails : nat -> bool) (rqs : list request) :
  Forall (fixes t) rqs ->
  forall n tc, partly_fixed t tc ->
               partly_fixed t (table_after_all fails n rqs tc).
Proof.
  induction 1 as [| rq rest Hrq Hrest IH]; intros n tc Hinv; simpl;
    [exact Hinv |].
  apply IH. destruct (update_ok fails n rq); [| exact Hinv].
  destruct Hrq as (k0 & v & s & Hkey & Hvial & Hupd & Hfix).
  unfold table_after. rewrite Hkey, Hvial, Hupd.
  intros k. destruct (decide (k = k0)) as [-> | Hne].
  - destruct (Hinv k0) as [_ Hsome].
    pose proof Hfix as (a & Ha & _).
    split; [rewrite Ha; discriminate |].
    intros a' Ha'. rewrite Ha in Ha'. injection Ha' as <-.
    right. exists v, s. split; [exact Hfix |].
    rewrite lookup_insert_eq.
    destruct (Hsome a Ha) as [-> | (v0 & s0 & _ & ->)]; simpl;
      [reflexivity | f_equal; apply (fixed_item_again v s v0 s0 a)].
  - rewrite lookup_insert_ne by congruence. apply Hinv.
Qed.

Lemma partly_fixed_touches t (tc : gmap (string * string) item) :
  partly_fixed t tc -> touches_only_injections t tc.
Proof.
  intros Hinv k. destruct (Hinv k) as [Hnone Hsome]. split; [exact Hnone |].
  intros a Ha. destruct (Hsome a Ha) as [Hsame | (v & s & Hfix & Hfixed)].
  - exists a. split; [exact Hsame |]. split; [intros name _ _; reflexivity |].
    reflexivity.
  - exists (fixed_item v s a). split; [exact Hfixed |]. split.
    + intros name Hv Hu. apply fixed_item_lookup; assumption.
    + intros Hnot. exfalso. apply Hnot.
      destruct Hfix as (a0 & Ha0 & Hkind & _).
      rewrite Ha in Ha0. injection Ha0 as <-. exact Hkind.
Qed.

(** A live run over loaded injections, up to the apply loop. *)
Lemma reconcile_live_cases (injections : list dict) (w : world) :
  Forall (fun c => isinstance_str (ch_SK c) = true)
         (returned [] (plan_changes injections).2) ->
  same_store w (reconcile false injections w).2 \/
  exists out changes,
    plan_changes injections = (out, Ok changes) /\
    (reconcile false injections w).1 = Ok tt /\
    w_updates (reconcile false injections w).2 =
      (w_updates w
         ++ requests_of (w_clock w) (length (w_updates w)) changes)%list /\
    w_table (reconcile false injections w).2 =
      table_after_all (w_update_fails w) (length (w_updates w))
        (requests_of (w_clock w) (length (w_updates w)) changes) (w_table w).
Proof.
  intros Hsk.
  remember (reconcile false injections w) as res eqn:Hres.
  symmetry in Hres. revert Hres. unfold reconcile.
  destruct (report_current injections) as [out1 r1].
  destruct (plan_changes injections) as [out2 r2] eqn:Hplan.
  unfold bindM at 1. rewrite printing_run.
  destruct r1 as [[] | e]; [| intros <-; left; repeat split].
  unfold bindM at 1. simpl.
  unfold bindM at 1. rewrite printing_run.
  destruct r2 as [changes | e]; [| intros <-; left; repeat split].
  simpl in Hsk.
  destruct changes as [| c cs]; [intros <-; left; repeat split |].
  cbv beta iota. remember (c :: cs) as changes eqn:Hchanges.
  clear Hchanges c cs.
  destruct (report_expected _ injections) as [out3 r3].
  unfold bindM at 1. rewrite printing_run.
  destruct r3 as [[] | e]; [| intros <-; left; repeat split].
  unfold bindM at 1. simpl. unfold bindM at 1.
  match goal with
  | |- context [apply_changes changes 0 0 ?w0] =>
    pose proof (apply_changes_spec changes w0 0 0 Hsk) as Hspec;
    destruct (apply_changes changes 0 0 w0) as [[counts | e] w2]
  end; simpl in Hspec; destruct Hspec as (Hr & Hu & Ht & _);
    [| discriminate Hr].
  intros <-. right. exists out2, changes. simpl.
  split; [reflexivity |]. split; [reflexivity |].
  rewrite Hu, Ht. split; reflexivity.
Qed.

Lemma main_live_cases (w : world) :
  same_store w (main false w).2 \/
  exists injections out changes,
    table_injections (w_table w) = Ok injections /\
    plan_changes injections = (out, Ok changes) /\
    (main false w).1 = Ok tt /\
    w_updates (main false w).2 =
      (w_updates w
         ++ requests_of (w_clock w) (length (w_updates w)) changes)%list /\
    w_table (main false w).2 =
      table_after_all (w_update_fails w) (length (w_updates w))
        (requests_of (w_clock w) (length (w_updates w)) changes) (w_table w).
Proof.
  unfold main, bindM.
  destruct (load_records w) as [[injections | e] w1] eqn:Hload.
  - apply load_records_ok in Hload. destruct Hload as [Hload Hsame].
    assert (Hsk : Forall (fun c => isinstance_str (ch_SK c) = true)
                    (returned [] (plan_changes injections).2)).
    { destruct (plan_changes injections) as [out [changes | e]] eqn:Hplan;
        simpl; [| constructor].
      exact (planned_changes_sort_keys _ _ _ _ Hload Hplan). }
    destruct (reconcile_live_cases injections w1 Hsk)
      as [Hro | (out & changes & Hplan & Hr & Hu & Ht)].
    + left. exact (same_store_trans _ _ _ Hsame Hro).
    + right. exists injections, out, changes.
      destruct Hsame as (Ht1 & Hu1 & Hf1 & _ & Hc1 & _).
      rewrite Hu, Ht, Ht1, Hu1, Hf1, Hc1. tauto.
  - left. pose proof (read_only_load w) as Hro. rewrite Hload in Hro.
    exact Hro.
Qed.

Lemma raising_run_same_store (dry_run : bool) (w : world) (e : exn) :
  (main dry_run w).1 = Raise e ->
  w_table (main dry_run w).2 = w_table w /\
  w_updates (main dry_run w).2 = w_updates w.
Proof.
  intros Hraise. destruct dry_run.
  - destruct (read_only_main_dry w) as (Ht & Hu & _). tauto.
  - destruct (main_live_cases w) as [(Ht & Hu & _) | (? & ? & ? & _ & _ & Hr & _)];
      [tauto | rewrite Hr in Hraise; discriminate].
Qed.

(** X10: a run that raises has written nothing: the keys of the table are
    strings, so the slice of [SK] in the apply loop does not raise and every
    exception of [main] comes before the first update; the table and the
    log of update calls are those of the start. *)
Theorem aborted_run_writes_nothing (dry_run : bool) (w : world) (e : exn) :
  (main dry_run w).1 = Raise e ->
  w_table (main dry_run w).2 = w_table w /\
  w_updates (main dry_run w).2 = w_updates w.
Proof. apply raising_run_same_store. Qed.

(** X11: whatever the run does, dry or live, with or without failing
    updates, it creates no item and deletes none, leaves every item that is
    no injection as it was, and changes nothing but the [vialId] and
    [updatedAt] of injections. *)
Theorem run_touches_only_injections (dry_run : bool) (w : world) :
  touches_only_injections (w_table w) (w_table (main dry_run w).2).
Proof.
  apply partly_fixed_touches.
  assert (Hsame : forall w', w_table w' = w_table w ->
                             partly_fixed (w_table w) (w_table w')).
  { intros w' ->. apply partly_fixed_start. }
  destruct dry_run.
  - apply Hsame. destruct (read_only_main_dry w) as (Ht & _). exact Ht.
  - destruct (main_live_cases w)
      as [(Ht & _) | (injs & out & changes & Hload & Hplan & _ & _ & Ht)];
      [apply Hsame; exact Ht |].
    rewrite Ht. apply partly_fixed_all; [| apply partly_fixed_start].
    apply planned_requests_fix. intros c Hc.
    exact (planned_changes_sound _ _ _ _ c Hload Hplan Hc).
Qed.

(** A run over injections with nothing to change writes nothing. *)
Lemma reconcile_settled (dry_run : bool) (injections : list dict)
  (out : list line) (w : world) :
  plan_changes injections = (out, Ok []) ->
  same_store w (reconcile dry_run injections w).2.
Proof.
  intros Hplan. unfold reconcile. rewrite Hplan.
  destruct (report_current injections) as [out1 r1].
  unfold bindM. rewrite !printing_run.
  destruct r1 as [[] | e]; repeat split.
Qed.

(** X12: once a live run has completed with every update succeeding, a
    further run, dry or live, finds nothing to change: it issues no update
    and leaves the table as it is. *)
Theorem second_run_writes_nothing (dry_run : bool) (w w' : world) :
  (forall m, w_update_fails w m = false) ->
  main false w = (Ok tt, w') ->
  w_table (main dry_run w').2 = w_table w' /\
  w_updates (main dry_run w').2 = w_updates w'.
Proof.
  intros Hfails Hrun.
  destruct (main_live_inv w w' Hrun)
    as (injections & out & changes & Hload & Hplan & _ & Ht).
  destruct (reconciled_table_plan (w_table w) injections out changes
              (w_update_fails w) (w_clock w) (length (w_updates w))
              Hload Hplan Hfails) as (injections' & out' & Hload' & Hplan').
  simpl in Ht. rewrite <- Ht in Hload'.
  assert (Hsame : same_store w' (main dry_run w').2).
  { unfold main, bindM.
    destruct (load_records w') as [[injs | e] w1] eqn:Hl.
    - apply load_records_ok in Hl. destruct Hl as [Hl Hs].
      rewrite Hload' in Hl. injection Hl as <-.
      exact (same_store_trans _ _ _ Hs
               (reconcile_settled dry_run injections' out' w1 Hplan')).
    - pose proof (read_only_load w') as Hro. rewrite Hl in Hro. exact Hro. }
  destruct Hsame as (Ht' & Hu' & _). tauto.
Qed.

(** *** The expected distribution *)

Lemma add_expected_keys (vial : option string) (dose : value)
  (ex ex' : distribution) :
  add_expected vial dose ex = Ok ex' ->
  forall q, In q (fst <$> ex') <-> q = vial \/ In q (fst <$> ex).
Proof.
  revert ex'. induction ex as [| [k [count mg]] rest IH]; intros ex';
    cbn [add_expected].
  - destruct (py_add _ _); cbn [bind]; [| discriminate].
    intros [= <-] q. simpl. intuition congruence.
  - case_bool_decide as Hk.
    + destruct (py_add _ _); cbn [bind]; [| discriminate].
      intros [= <-] q. simpl. subst k. intuition congruence.
    + destruct (add_expected vial dose rest) as [rest' |] eqn:Hrest; simpl;
        [| discriminate].
      intros [= <-] q. simpl. rewrite (IH rest' eq_refl q).
      intuition congruence.
Qed.

Lemma expected_loop_keys (injections : list dict) (ex ex' : distribution) :
  expected_loop injections ex = Ok ex' ->
  forall q, In q (fst <$> ex') <->
    In q (fst <$> ex) \/
    exists inj, In inj injections /\
      get_correct_vial_for_date (py_get inj "timestamp" (PStr "")) = Ok q.
Proof.
  revert ex. induction injections as [| inj rest IH]; intros ex; simpl.
  - intros [= <-] q. split; [tauto | intros [Hq | (? & [] & _)]; exact Hq].
  - destruct (get_correct_vial_for_date _) as [vial | e] eqn:Hv; simpl;
      [| discriminate].
    destruct (add_expected vial _ ex) as [ex1 | e] eqn:Hadd; simpl;
      [| discriminate].
    intros Hloop q. rewrite (IH ex1 Hloop q), (add_expected_keys _ _ _ _ Hadd q).
    split.
    + intros [[-> | Hq] | (i & Hi & Hq)].
      * right. exists inj. tauto.
      * tauto.
      * right. exists i. tauto.
    + intros [Hq | (i & [<- | Hi] & Hq)].
      * tauto.
      * left. left. congruence.
      * right. exists i. tauto.
Qed.

(** [sorted] cannot order [None] with a vial. *)
Lemma sorted_expected_mixed (ex : distribution) (v : string) :
  In None (fst <$> ex) -> In (Some v) (fst <$> ex) ->
  sorted_expected ex = Raise TypeError.
Proof.
  intros Hnone Hsome. unfold sorted_expected.
  destruct ex as [| e1 [| e2 rest]].
  - destruct Hnone.
  - simpl in Hnone, Hsome. destruct Hnone as [Hn | []], Hsome as [Hs | []].
    congruence.
  - destruct (forallb _ (e1 :: e2 :: rest)) eqn:Hall; [| reflexivity].
    exfalso. rewrite forallb_forall in Hall.
    apply in_map_iff in Hnone. destruct Hnone as (e & He & Hin).
    specialize (Hall e Hin). rewrite He in Hall.
    apply bool_decide_eq_true in Hall. destruct Hall as [x Hx]. discriminate Hx.
Qed.

Lemma report_expected_mixed (n : nat) (injections : list dict) (i j : dict)
  (v : string) :
  In i injections -> In j injections ->
  get_correct_vial_for_date (py_get i "timestamp" (PStr "")) = Ok None ->
  get_correct_vial_for_date (py_get j "timestamp" (PStr "")) = Ok (Some v) ->
  exists out e, report_expected n injections = (out, Raise e).
Proof.
  intros Hi Hj Hnone Hsome. unfold report_expected.
  destruct (expected_loop injections []) as [ex | e] eqn:Hloop; simpl;
    [| eauto].
  rewrite (sorted_expected_mixed ex v); [eauto | |];
    apply (expected_loop_keys _ _ _ Hloop); right; eauto.
Qed.

(** X13: when an injection without a timestamp stands in a table in which
    some injection needs a change, the run, dry or live, raises before the
    dry-run test (at the latest when it sorts the expected distribution,
    whose keys are then [None] and a vial), and nothing is written. *)
Theorem undated_injection_aborts_run (dry_run : bool) (w w1 : world)
  (injections : list dict) (out : list line) (c : change) (cs : list change)
  (inj : dict) :
  load_records w = (Ok injections, w1) ->
  plan_changes injections = (out, Ok (c :: cs)) ->
  In inj injections ->
  py_truthy (py_get inj "timestamp" (PStr "")) = false ->
  exists e,
    (main dry_run w).1 = Raise e /\
    w_table (main dry_run w).2 = w_table w /\
    w_updates (main dry_run w).2 = w_updates w.
Proof.
  intros Hload Hplan Hinj Hfalsy.
  destruct (plan_changes_inv injections out (c :: cs) Hplan) as [_ Hchg].
  destruct (proj1 (Hchg c) (or_introl eq_refl)) as (j & o & Hj & Hpj).
  apply plan_injection_change_inv in Hpj. destruct Hpj as (Hv & _).
  destruct (report_expected_mixed (length (c :: cs)) injections inj j _
              Hinj Hj (get_correct_vial_falsy _ Hfalsy) Hv)
    as (out3 & e3 & Hexp).
  assert (Hraise : exists e, (main dry_run w).1 = Raise e).
  { unfold main, bindM at 1. rewrite Hload. unfold reconcile.
    rewrite Hplan.
    destruct (report_current injections) as [out1 r1].
    unfold bindM. rewrite !printing_run.
    destruct r1 as [[] | e1]; [| eauto]. simpl.
    change (length (c :: cs)) with (S (length cs)) in Hexp. rewrite Hexp.
    simpl. eauto. }
  destruct Hraise as [e He]. exists e. split; [exact He |].
  exact (raising_run_same_store dry_run w e He).
Qed.

Lemma add_expected_count (vial : option string) (dose : value)
  (ex ex' : distribution) :
  add_expected vial dose ex = Ok ex' ->
  forall q, expected_count q ex' =
            (expected_count q ex + if bool_decide (vial = q) then 1 else 0)%Z.
Proof.
  revert ex'. induction ex as [| [k [count mg]] rest IH]; intros ex'; cbn [add_expected].
  - destruct (py_add _ _); cbn [bind]; [| discriminate].
    intros [= <-] q. simpl. reflexivity.
  - case_bool_decide as Hk.
    + destruct (py_add _ _); cbn [bind]; [| discriminate].
      intros [= <-] q. simpl. subst k.
      case_bool_decide; lia.
    + destruct (add_expected vial dose rest) as [rest' |] eqn:Hrest; simpl;
        [| discriminate].
      intros [= <-] q. simpl. rewrite (IH rest' eq_refl q).
      repeat case_bool_decide; try lia. congruence.
Qed.

Lemma expected_loop_count (injections : list dict) (ex ex' : distribution) :
  expected_loop injections ex = Ok ex' ->
  forall q, expected_count q ex' =
            (expected_count q ex + policy_count q injections)%Z.
Proof.
  revert ex. induction injections as [| inj rest IH]; intros ex; simpl.
  - intros [= <-] q. lia.
  - destruct (get_correct_vial_for_date _) as [vial | e] eqn:Hv; simpl;
      [| discriminate].
    destruct (add_expected vial _ ex) as [ex1 | e] eqn:Hadd; simpl;
      [| discriminate].
    intros Hloop q.
    rewrite (IH ex1 Hloop q), (add_expected_count _ _ _ _ Hadd q). lia.
Qed.

(** X14: the expected distribution counts, for every vial and for [None],
    the injections for which the policy returns it, and its keys are
    [None] and vials of the policy. *)
Theorem expected_distribution_counts (injections : list dict)
  (ex : distribution) :
  expected_loop injections [] = Ok ex ->
  (forall q, expected_count q ex = policy_count q injections) /\
  (forall q, In q (fst <$> ex) ->
     q = None \/ exists v, q = Some v /\ In v policy_vials).
Proof.
  intros Hloop. split.
  - intros q. rewrite (expected_loop_count _ _ _ Hloop q). simpl. lia.
  - intros q Hq. apply (expected_loop_keys _ _ _ Hloop) in Hq.
    destruct Hq as [[] | (inj & _ & Hv)].
    destruct q as [v |]; [right | left; reflexivity].
    exists v. split; [reflexivity | exact (get_correct_vial_policy _ _ Hv)].
Qed.

(** *** The current distribution *)

Lemma add_shot_total (vial_id : value) (sh : shot) (vs : shots_by_vial) :
  total_shots (add_shot vial_id sh vs) = S (total_shots vs).
Proof.
  induction vs as [| [k shs] rest IH]; simpl; [reflexivity |].
  destruct (py_key_eq k vial_id); simpl.
  - rewrite length_app. simpl. lia.
  - rewrite IH. lia.
Qed.

Lemma group_shots_total (injections : list dict) (vs vs' : shots_by_vial) :
  group_shots injections vs = Ok vs' ->
  total_shots vs' = total_shots vs + length injections.
Proof.
  revert vs. induction injections as [| inj rest IH]; intros vs; simpl.
  - intros [= <-]. lia.
  - destruct (py_or _ _); try discriminate;
      intros Hrest; apply IH in Hrest; rewrite Hrest, add_shot_total; lia.
Qed.

Lemma group_shots_raises (injections : list dict) (vs : shots_by_vial)
  (e : exn) :
  group_shots injections vs = Raise e -> e = TypeError.
Proof.
  revert vs. induction injections as [| inj rest IH]; intros vs; simpl;
    [discriminate |].
  destruct (py_or _ _); try (apply IH). congruence.
Qed.

(** X15: the grouping by vial of the current distribution accounts for
    every injection once; it raises [TypeError], and the report of the
    current distribution with it, when the [vialId] of an injection is a
    tagged dict, which cannot be a key. *)
Theorem group_shots_accounts_for_every_injection (injections : list dict) :
  (forall vs, group_shots injections [] = Ok vs ->
     total_shots vs = length injections) /\
  ((forall inj, In inj injections ->
      forall a, py_get inj "vialId" PNone <> PRaw a) ->
   exists vs, group_shots injections [] = Ok vs) /\
  (forall inj a, In inj injections -> py_get inj "vialId" PNone = PRaw a ->
     group_shots injections [] = Raise TypeError /\
     (report_current injections).2 = Raise TypeError).
Proof.
  split; [| split].
  - intros vs Hvs. apply group_shots_total in Hvs. exact Hvs.
  - generalize (@nil (value * list shot)).
    induction injections as [| inj rest IH]; intros vs Hraw; simpl; [eauto |].
    pose proof (Hraw inj (or_introl eq_refl)) as Hinj.
    assert (Hnot : forall a,
              py_or (py_get inj "vialId" PNone) (PStr "NULL/unassigned")
              <> PRaw a).
    { intros a. unfold py_or. destruct (py_truthy _); [apply Hinj | discriminate]. }
    destruct (py_or _ _) eqn:Hid;
      try (apply IH; intros i Hi; apply Hraw; right; exact Hi).
    exfalso. exact (Hnot a eq_refl).
  - intros inj a Hin Hraw.
    assert (Hgroup : group_shots injections [] = Raise TypeError).
    { destruct (group_shots injections []) as [vs | e] eqn:Hg;
        [| rewrite (group_shots_raises _ _ e Hg); reflexivity].
      exfalso. revert Hg. generalize (@nil (value * list shot)).
      induction injections as [| i rest IH]; intros vs0; simpl;
        [destruct Hin |].
      destruct Hin as [-> | Hin].
      - unfold py_or. rewrite Hraw. simpl. discriminate.
      - destruct (py_or _ _); try discriminate; apply (IH Hin). }
    split; [exact Hgroup |]. unfold report_current. rewrite Hgroup.
    reflexivity.
Qed.

(** *** The plan *)

(** X17: the planner treats the injections one by one: the plan of two
    lists in a row is the plan of the first followed by the plan of the
    second, unless the first raises. *)
Theorem plan_changes_app (l1 l2 : list dict) :
  plan_changes (l1 ++ l2) =
    match (plan_changes l1).2 with
    | Ok c1 =>
      (((plan_changes l1).1 ++ (plan_changes l2).1)%list,
       do c2 <- (plan_changes l2).2; Ok (c1 ++ c2)%list)
    | Raise e => plan_changes l1
    end.
Proof.
  induction l1 as [| inj rest IH]; simpl.
  - destruct (plan_changes l2) as [out [c2 | e]]; reflexivity.
  - destruct (plan_injection inj) as [[oc o] | e]; [| reflexivity].
    rewrite IH. destruct (plan_changes rest) as [out1 [c1 | e1]]; simpl;
      [| reflexivity].
    destruct (plan_changes l2) as [out2 [c2 | e2]]; simpl;
      rewrite <- ?app_assoc; destruct oc; reflexivity.
Qed.

(** *** Dry run and live run *)

Lemma apply_change_stdout (c : change) (w : world) :
  exists post, w_stdout (apply_change c w).2 = (w_stdout w ++ post)%list.
Proof.
  unfold apply_change, bindM, liftM.
  destruct (py_slice_to 40 (ch_SK c)) as [sk | e]; simpl;
    [| exists []; rewrite app_nil_r; reflexivity].
  unfold dynamo_update_item. simpl.
  destruct (w_update_fails w _); simpl;
    [rewrite <- app_assoc; eauto |].
  destruct (format_dynamo_value (ch_PK c));
    try (simpl; rewrite <- app_assoc; eauto);
  destruct (format_dynamo_value (ch_SK c));
    simpl; rewrite <- app_assoc; eauto.
Qed.

Lemma apply_changes_stdout (changes : list change) (s0 e0 : nat) (w : world) :
  exists post,
    w_stdout (apply_changes changes s0 e0 w).2 = (w_stdout w ++ post)%list.
Proof.
  revert s0 e0 w. induction changes as [| c rest IH]; intros s0 e0 w.
  - exists []. simpl. rewrite app_nil_r. reflexivity.
  - cbn [apply_changes]. unfold bindM.
    destruct (apply_change_stdout c w) as [post1 H1].
    destruct (apply_change c w) as [[ok | e] w1]; simpl in H1 |- *;
      [| eauto].
    destruct ok;
      [destruct (IH (S s0) e0 w1) as [post2 H2]
      | destruct (IH s0 (S e0) w1) as [post2 H2]];
      rewrite H2, H1, <- app_assoc; eauto.
Qed.

(** [reconcile] phase by phase. *)
Lemma reconcile_phases (dry_run : bool) (injections : list dict) (w : world) :
  reconcile dry_run injections w =
    match report_current injections with
    | (out1, Raise e) => (Raise e, set_stdout (w_stdout w ++ out1)%list w)
    | (out1, Ok _) =>
      let pre2 := (w_stdout w ++ out1 ++ [LBanner "Changes needed:"])%list in
      match plan_changes injections with
      | (out2, Raise e) => (Raise e, set_stdout (pre2 ++ out2)%list w)
      | (out2, Ok []) =>
        (Ok tt, set_stdout ((pre2 ++ out2) ++ [LNoChanges])%list w)
      | (out2, Ok changes) =>
        match report_expected (length changes) injections with
        | (out3, Raise e) =>
          (Raise e, set_stdout (pre2 ++ out2 ++ out3)%list w)
        | (out3, Ok _) =>
          let pre := (pre2 ++ out2 ++ out3)%list in
          if dry_run then (Ok tt, set_stdout (pre ++ [LDryRun])%list w)
          else
            bindM (apply_changes changes 0 0)
                  (fun counts => emit [LDone counts.1 counts.2])
                  (set_stdout (pre ++ [LApplying])%list w)
        end
      end
    end.
Proof.
  unfold reconcile.
  destruct (report_current injections) as [out1 r1].
  destruct (plan_changes injections) as [out2 r2].
  unfold bindM at 1. rewrite printing_run.
  destruct r1 as [[] | e]; [| reflexivity].
  unfold bindM at 1. simpl.
  unfold bindM at 1. rewrite printing_run.
  destruct r2 as [changes | e];
    [| unfold set_stdout; simpl; rewrite <- !app_assoc; reflexivity].
  destruct changes as [| c cs];
    [unfold emit, set_stdout; simpl; rewrite <- !app_assoc; reflexivity |].
  cbv beta iota. remember (c :: cs) as changes eqn:Hchanges.
  destruct (report_expected _ injections) as [out3 r3].
  unfold bindM at 1. rewrite printing_run.
  destruct r3 as [[] | e];
    [| unfold set_stdout; simpl; rewrite <- !app_assoc; reflexivity].
  destruct dry_run.
  - unfold emit, set_stdout. simpl. rewrite <- !app_assoc. reflexivity.
  - unfold bindM at 1. unfold emit at 1, set_stdout. simpl.
    rewrite <- !app_assoc. reflexivity.
Qed.

Lemma reconcile_dry_live (injections : list dict) (w : world) :
  (reconcile false injections w = reconcile true injections w /\
   ((exists e, (reconcile true injections w).1 = Raise e) \/
    exists pre,
      w_stdout (reconcile true injections w).2 = (pre ++ [LNoChanges])%list)) \/
  ((reconcile true injections w).1 = Ok tt /\
   exists pre post,
     w_stdout (reconcile true injections w).2 = (pre ++ [LDryRun])%list /\
     w_stdout (reconcile false injections w).2
       = (pre ++ LApplying :: post)%list).
Proof.
  rewrite !reconcile_phases.
  destruct (report_current injections) as [out1 [[] | e]];
    [| left; split; [reflexivity | left; eauto]].
  destruct (plan_changes injections) as [out2 [[| c cs] | e]];
    [left; split; [reflexivity | right; simpl; eauto] |
     | left; split; [reflexivity | left; simpl; eauto]].
  cbv zeta.
  destruct (report_expected _ injections) as [out3 [[] | e]];
    [| left; split; [reflexivity | left; simpl; eauto]].
  right. split; [reflexivity |].
  match goal with
  | |- context [set_stdout (?p ++ [LApplying])%list w] =>
    exists p;
    destruct (apply_changes_stdout (c :: cs) 0 0
                (set_stdout (p ++ [LApplying])%list w)) as [post Hpost];
    unfold bindM;
    destruct (apply_changes (c :: cs) 0 0
                (set_stdout (p ++ [LApplying])%list w)) as [[counts | e] w2]
  end; simpl in Hpost |- *; rewrite Hpost;
    [exists (post ++ [LDone counts.1 counts.2])%list | exists post];
    rewrite <- !app_assoc; simpl; rewrite <- ?app_assoc; split; reflexivity.
Qed.

(** X16: a dry run is a preview of the live run from the same state.  When
    the dry run raises, or ends on the message that no change is needed, the
    live run is the same run; when it ends on the dry-run notice, the live
    run prints the same lines up to that notice and goes on from there with
    the apply banner. *)
Theorem dry_run_previews_live_run (w : world) :
  (forall e, (main true w).1 = Raise e -> main false w = main true w) /\
  (forall wd, main true w = (Ok tt, wd) ->
     exists pre,
       (w_stdout wd = (pre ++ [LNoChanges])%list /\
        main false w = main true w) \/
       (w_stdout wd = (pre ++ [LDryRun])%list /\
        exists post,
          w_stdout (main false w).2 = (pre ++ LApplying :: post)%list)).
Proof.
  unfold main, bindM.
  destruct (load_records w) as [[injections | e0] w1].
  - destruct (reconcile_dry_live injections w1)
      as [(Heq & Hcase) | (Hok & pre & post & Hd & Hl)]; split.
    + intros _ _. exact Heq.
    + intros wd Hrun. destruct Hcase as [[e He] | [pre Hpre]].
      * rewrite Hrun in He. discriminate He.
      * exists pre. left. rewrite Hrun in Hpre. tauto.
    + intros e He. rewrite Hok in He. discriminate He.
    + intros wd Hrun. exists pre. right. rewrite Hrun in Hd. eauto.
  - split; [reflexivity | discriminate].
Qed.

End RunEdges.



(** ** The script on concrete inputs *)

Lemma get_correct_vial_for_date_windows_witness :
  "2025-09-13T00:00" <> "" /\
  get_correct_vial_for_date (PStr "2025-09-13T00:00")
    = Ok (Some "vial_20240805_2").
Proof.
  assert (Hne : "2025-09-13T00:00" <> "") by discriminate.
  split; [exact Hne |].
  destruct (get_correct_vial_for_date_windows "2025-09-13T00:00" Hne)
    as (_ & Hsecond & _).
  apply Hsecond; reflexivity.
Defined.

Lemma planner_flags_wrong_assignment_witness :
  get_correct_vial_for_date (py_get unassigned_injection "timestamp" (PStr ""))
    = Ok (Some "vial_20241029_1") /\
  unassigned_injection !! "PK" = Some (PStr "USER#1") /\
  unassigned_injection !! "SK" = Some (PStr "INJECTION#8") /\
  exists out,
    plan_injection unassigned_injection =
      Ok (Some {| ch_PK := PStr "USER#1"; ch_SK := PStr "INJECTION#8";
                  ch_timestamp := PStr "2025-11-05T09:00";
                  ch_doseMg := PFloat 5%Z;
                  ch_current_vial := PStr "NULL";
                  ch_correct_vial := "vial_20241029_1" |}, out).
Proof.
  split; [reflexivity |]. split; [reflexivity |]. split; [reflexivity |].
  destruct (planner_flags_wrong_assignment unassigned_injection
              "vial_20241029_1" (PStr "USER#1") (PStr "INJECTION#8")
              eq_refl eq_refl eq_refl) as (_ & Hemit & _).
  apply Hemit. left. reflexivity.
Defined.

(** A string that is no date is given the last vial. *)
Lemma unparseable_timestamp_gets_vial :
  ~ (forall t : string,
       t = "" \/ has_date_prefix t = false ->
       get_correct_vial_for_date (PStr t) = Ok None).
Proof.
  intros Hclaim.
  specialize (Hclaim "garbage" (or_intror eq_refl)).
  vm_compute in Hclaim. discriminate Hclaim.
Qed.

(** A string set comes back as the tagged dict, which is no string. *)
Lemma unknown_tag_is_not_a_string :
  ~ (forall a : attr,
       ~ In (attr_tag a) known_tags ->
       exists s, parse_dynamo_value a = Ok (PStr s)).
Proof.
  intros Hclaim.
  destruct (Hclaim (ASS ["a"; "b"])) as [s Hs].
  - simpl. intros [E | [E | [E | [E | []]]]]; discriminate E.
  - simpl in Hs. discriminate Hs.
Qed.


(** Facts that turn the result of an evaluation into the equations the
    theorems ask for. *)
Lemma returned_ok {A : Type} (dflt : A) (r : result A) :
  is_ok r = true -> r = Ok (returned dflt r).
Proof. destruct r; [reflexivity | discriminate]. Qed.

Lemma returned_unit (r : result unit) : is_ok r = true -> r = Ok tt.
Proof. destruct r as [[] | e]; [reflexivity | discriminate]. Qed.

Lemma run_returned {W : Type} (p : result unit * W) :
  is_ok p.1 = true -> p = (Ok tt, p.2).
Proof.
  destruct p as [r w]. simpl. intros Hr. rewrite (returned_unit r Hr).
  reflexivity.
Qed.

Lemma plan_returned {A B : Type} (dflt : B) (p : A * result B) :
  is_ok p.2 = true -> p = (p.1, Ok (returned dflt p.2)).
Proof. destruct p as [a [b | e]]; [reflexivity | discriminate]. Qed.

Lemma forallb_Forall {A : Type} (f : A -> bool) (l : list A) :
  forallb f l = true -> Forall (fun x => f x = true) l.
Proof.
  induction l as [| x l IH]; simpl; [constructor |].
  intros Hl. apply andb_true_iff in Hl. destruct Hl as [Hx Hl].
  constructor; [exact Hx | exact (IH Hl)].
Qed.

Lemma demo_table_loads : table_injections demo_table = Ok demo_injections.
Proof. apply returned_ok. vm_compute. reflexivity. Qed.

Lemma demo_table_plan :
  plan_changes demo_injections
    = ((plan_changes demo_injections).1, Ok demo_changes).
Proof. apply plan_returned. vm_compute. reflexivity. Qed.

Lemma plan_apply_idempotent_witness :
  table_injections (w_table (world_of demo_table never)) = Ok demo_injections /\
  plan_changes demo_injections
    = ((plan_changes demo_injections).1, Ok demo_changes) /\
  (forall m, w_update_fails (world_of demo_table never) m = false) /\
  exists counts w' injections' out',
    apply_changes demo_changes 0 0 (world_of demo_table never)
      = (Ok counts, w') /\
    table_injections (w_table w') = Ok injections' /\
    plan_changes injections' = (out', Ok []).
Proof.
  assert (Hfails : forall m, w_update_fails (world_of demo_table never) m
                             = false) by reflexivity.
  split; [exact demo_table_loads |]. split; [exact demo_table_plan |].
  split; [exact Hfails |].
  exact (plan_apply_idempotent (world_of demo_table never) demo_injections
           (plan_changes demo_injections).1 demo_changes
           demo_table_loads demo_table_plan Hfails).
Defined.

Lemma demo_live_run_returns :
  main false (world_of demo_table never)
    = (Ok tt, (main false (world_of demo_table never)).2).
Proof. apply run_returned. vm_compute. reflexivity. Qed.

Lemma live_run_reconciles_dated_injections_witness :
  (forall m, w_update_fails (world_of demo_table never) m = false) /\
  main false (world_of demo_table never)
    = (Ok tt, (main false (world_of demo_table never)).2) /\
  forall (k : string * string) (a' : item),
    w_table (main false (world_of demo_table never)).2 !! k = Some a' ->
    is_injection k a' ->
    exists inj,
      parse_item (item_of_entry (k, a')) = Ok inj /\
      (py_truthy (py_get inj "timestamp" (PStr "")) = true ->
       exists v,
         get_correct_vial_for_date (py_get inj "timestamp" (PStr ""))
           = Ok (Some v) /\
         inj !! "vialId" = Some (PStr v) /\
         In v policy_vials /\ ~ In v DRY_STOCK_VIALS) /\
      (py_truthy (py_get inj "timestamp" (PStr "")) = false ->
       w_table (world_of demo_table never) !! k = Some a').
Proof.
  assert (Hfails : forall m, w_update_fails (world_of demo_table never) m
                             = false) by reflexivity.
  split; [exact Hfails |]. split; [exact demo_live_run_returns |].
  exact (live_run_reconciles_dated_injections (world_of demo_table never)
           (main false (world_of demo_table never)).2 Hfails
           demo_live_run_returns).
Defined.

Lemma demo_changes_sort_keys :
  Forall (fun c => isinstance_str (ch_SK c) = true) demo_changes.
Proof. apply forallb_Forall. vm_compute. reflexivity. Qed.

Lemma apply_isolates_failures_witness :
  Forall (fun c => isinstance_str (ch_SK c) = true) demo_changes /\
  exists success_count error_count w',
    apply_changes demo_changes 0 0 (world_of demo_table first_fails)
      = (Ok (success_count, error_count), w') /\
    success_count + error_count = length demo_changes /\
    success_count
      = count_ok first_fails 0
          (requests_of (fun _ => "2025-11-06T10:00:00") 0 demo_changes) /\
    length (requests_of (fun _ => "2025-11-06T10:00:00") 0 demo_changes)
      = length demo_changes /\
    w_updates w'
      = requests_of (fun _ => "2025-11-06T10:00:00") 0 demo_changes /\
    w_table w'
      = table_after_all first_fails 0
          (requests_of (fun _ => "2025-11-06T10:00:00") 0 demo_changes)
          demo_table.
Proof.
  split; [exact demo_changes_sort_keys |].
  exact (apply_isolates_failures demo_changes
           (world_of demo_table first_fails) demo_changes_sort_keys).
Defined.

(** With the first update failing, the second is still issued and applied:
    one success, one failure, two requests, the second injection on its
    vial and the first still on the dry-stock vial. *)
Lemma first_failure_does_not_stop_the_batch :
  let r := apply_changes demo_changes 0 0 (world_of demo_table first_fails) in
  r.1 = Ok (1, 1) /\
  length (w_updates r.2) = 2 /\
  (w_table r.2 !! ("USER#1", "INJECTION#2")) ≫= (fun a => a !! "vialId")
    = Some (AS "vial_20240805_2") /\
  (w_table r.2 !! ("USER#1", "INJECTION#3")) ≫= (fun a => a !! "vialId")
    = Some (AS "vial_20241029_3").
Proof.
  cbv zeta. split; [| split; [| split]]; vm_compute; reflexivity.
Qed.

(** A dry run on a table with nothing to change returns before the
    expected distribution. *)
Lemma dry_run_without_changes_skips_expected :
  ~ (forall w : world,
       w_table (main true w).2 = w_table w /\
       (main true w).1 = Ok tt /\
       prints_expected (main true w).2 = true).
Proof.
  intros Hclaim.
  destruct (Hclaim (world_of settled_table never)) as (_ & _ & Hprints).
  vm_compute in Hprints. discriminate Hprints.
Qed.

Lemma undated_live_run_returns :
  main false (world_of undated_table never)
    = (Ok tt, (main false (world_of undated_table never)).2).
Proof. apply run_returned. vm_compute. reflexivity. Qed.

(** A live run leaves the undated injection without a vial. *)
Lemma undated_injection_stays_unassigned :
  ~ (forall w w' : world,
       (forall m, w_update_fails w m = false) ->
       main false w = (Ok tt, w') ->
       forall (k : string * string) (a' : item),
         w_table w' !! k = Some a' -> is_injection k a' ->
         exists inj v,
           parse_item (item_of_entry (k, a')) = Ok inj /\
           inj !! "vialId" = Some (PStr v) /\
           get_correct_vial_for_date (py_get inj "timestamp" (PStr ""))
             = Ok (Some v) /\
           ~ In v DRY_STOCK_VIALS).
Proof.
  intros Hclaim.
  set (k := ("USER#1", "INJECTION#9")).
  set (w' := (main false (world_of undated_table never)).2).
  destruct (w_table w' !! k) as [a' |] eqn:Hk.
  - assert (Hkind : is_injection k a').
    { unfold is_injection.
      transitivity
        (match w_table w' !! k with
         | Some a => has_entity_type "INJECTION" (item_of_entry (k, a))
         | None => false
         end); [rewrite Hk; reflexivity | vm_compute; reflexivity]. }
    assert (Hvial : match w_table w' !! k with
                    | Some a => has_string_vial (item_of_entry (k, a))
                    | None => false
                    end = false) by (vm_compute; reflexivity).
    rewrite Hk in Hvial.
    destruct (Hclaim (world_of undated_table never) w' (fun _ => eq_refl)
                undated_live_run_returns k a' Hk Hkind)
      as (inj & v & Hparse & Hv & _).
    unfold has_string_vial in Hvial. rewrite Hparse, Hv in Hvial.
    discriminate Hvial.
  - assert (Hsome : match w_table w' !! k with
                    | Some _ => true
                    | None => false
                    end = true) by (vm_compute; reflexivity).
    rewrite Hk in Hsome. discriminate Hsome.
Qed.

(** The expected distribution cannot be sorted when an undated injection
    stands next to a dated one: the run raises before the dry-run test, and
    before any update. *)
Lemma undated_injection_aborts_expected_report :
  (main true (world_of mixed_table never)).1 = Raise TypeError /\
  (main false (world_of mixed_table never)).1 = Raise TypeError /\
  w_updates (main false (world_of mixed_table never)).2 = [].
Proof. split; [| split]; vm_compute; reflexivity. Qed.

(** A dry run on [demo_table] prints the two changes and the expected
    distribution, returns, and has issued no update. *)
Lemma dry_run_prints_plan_and_expected :
  let r := main true (world_of demo_table never) in
  r.1 = Ok tt /\
  w_updates r.2 = [] /\
  drop 11 (w_stdout r.2) =
    [LBanner "Changes needed:";
     LChange (PStr "2025-11-05") (PFloat 5%Z) (PStr "vial_20241029_3")
             "vial_20241029_1";
     LChange (PStr "2025-09-20") (PFloat 5%Z) (PStr "NULL") "vial_20240805_2";
     LTotalChanges 2;
     LBanner "Expected distribution after fix:";
     LExpected (Some "vial_20240805_1") 1 (PFloat 5%Z);
     LExpected (Some "vial_20240805_2") 1 (PFloat 5%Z);
     LExpected (Some "vial_20241029_1") 1 (PFloat 5%Z);
     LDryRun].
Proof. cbv zeta. split; [| split]; vm_compute; reflexivity. Qed.

(** The planner prints its diagnostic for an undated injection and plans
    the change of the injection that follows it. *)
Lemma planner_goes_on_after_undated_injection :
  plan_changes
    [entry_injection ("USER#1", "INJECTION#9") (demo_injection "" (ANULL true));
     entry_injection ("USER#1", "INJECTION#2")
       (demo_injection "2025-09-20T08:00" (ANULL true))]
  = ([LCannotDetermine (PStr "");
      LChange (PStr "2025-09-20") (PFloat 5%Z) (PStr "NULL") "vial_20240805_2"],
     Ok [{| ch_PK := PStr "USER#1"; ch_SK := PStr "INJECTION#2";
            ch_timestamp := PStr "2025-09-20T08:00";
            ch_doseMg := PFloat 5%Z;
            ch_current_vial := PStr "NULL";
            ch_correct_vial := "vial_20240805_2" |}]).
Proof. vm_compute. reflexivity. Qed.

(** A bool does not survive the round trip: it is written as the number
    ['True'], which [float()] does not read. *)
Lemma bool_round_trip_raises :
  format_dynamo_value (PBool true) = AN "True" /\
  parse_dynamo_value (format_dynamo_value (PBool true)) = Raise ValueError /\
  parse_dynamo_value (format_dynamo_value (PFloat 5%Z)) = Ok (PFloat 5%Z).
Proof. split; [| split]; vm_compute; reflexivity. Qed.

(** *** The further properties on concrete inputs *)

Lemma scan_all_items_complete_witness :
  (forall n, w_scan_fails (world_of demo_table never) n = false) /\
  scan_all_items "INJECTION" (world_of demo_table never) =
    (Ok (List.filter (has_entity_type "INJECTION")
           (table_items (world_of demo_table never))),
     set_scans (w_scans (world_of demo_table never)
                + length (table_pages (world_of demo_table never)))
       (world_of demo_table never)) /\
  1 <= length (table_pages (world_of demo_table never)).
Proof.
  split; [reflexivity |].
  exact (scan_all_items_complete "INJECTION" (world_of demo_table never)
           (fun _ => eq_refl)).
Defined.

Lemma scan_all_items_fails_fast_witness :
  1 < length (table_pages second_scan_fails) /\
  w_scan_fails second_scan_fails (w_scans second_scan_fails + 1) = true /\
  (scan_all_items "INJECTION" second_scan_fails).1 = Raise ClientError /\
  w_table (scan_all_items "INJECTION" second_scan_fails).2
    = w_table second_scan_fails /\
  w_updates (scan_all_items "INJECTION" second_scan_fails).2
    = w_updates second_scan_fails.
Proof.
  assert (Hpages : 1 < length (table_pages second_scan_fails))
    by (apply Nat.ltb_lt; vm_compute; reflexivity).
  split; [exact Hpages |]. split; [reflexivity |].
  exact (scan_all_items_fails_fast "INJECTION" second_scan_fails 1 Hpages
           eq_refl).
Defined.

Lemma get_correct_vial_monotone_witness :
  "2025-08-20T08:00" <> "" /\ "2025-11-05T09:00" <> "" /\
  String.leb (substring 0 10 "2025-08-20T08:00")
             (substring 0 10 "2025-11-05T09:00") = true /\
  exists v1 v2,
    get_correct_vial_for_date (PStr "2025-08-20T08:00") = Ok (Some v1) /\
    get_correct_vial_for_date (PStr "2025-11-05T09:00") = Ok (Some v2) /\
    String.leb v1 v2 = true.
Proof.
  split; [discriminate |]. split; [discriminate |]. split; [reflexivity |].
  apply (get_correct_vial_monotone "2025-08-20T08:00" "2025-11-05T09:00");
    [discriminate | discriminate | reflexivity].
Defined.

Lemma planner_aborts_on_non_string_timestamp_witness :
  In numeric_injection [numeric_injection] /\
  py_truthy (py_get numeric_injection "timestamp" (PStr "")) = true /\
  isinstance_str (py_get numeric_injection "timestamp" (PStr "")) = false /\
  get_correct_vial_for_date (py_get numeric_injection "timestamp" (PStr ""))
    = Raise TypeError /\
  plan_injection numeric_injection = Raise TypeError /\
  exists e, (plan_changes [numeric_injection]).2 = Raise e.
Proof.
  assert (Hin : In numeric_injection [numeric_injection])
    by (left; reflexivity).
  assert (Htruthy :
            py_truthy (py_get numeric_injection "timestamp" (PStr "")) = true)
    by (vm_compute; reflexivity).
  assert (Hstr :
            isinstance_str (py_get numeric_injection "timestamp" (PStr ""))
            = false)
    by (vm_compute; reflexivity).
  split; [exact Hin |]. split; [exact Htruthy |]. split; [exact Hstr |].
  exact (planner_aborts_on_non_string_timestamp [numeric_injection]
           numeric_injection Hin Htruthy Hstr).
Defined.

Lemma planner_reads_keys_only_for_changes_witness :
  get_correct_vial_for_date (py_get keyless_injection "timestamp" (PStr ""))
    = Ok (Some "vial_20240805_1") /\
  (needs_change (py_get keyless_injection "vialId" PNone) "vial_20240805_1"
     = false ->
   plan_injection keyless_injection = Ok (None, [])) /\
  (needs_change (py_get keyless_injection "vialId" PNone) "vial_20240805_1"
     = true ->
   keyless_injection !! "PK" = None \/ keyless_injection !! "SK" = None ->
   plan_injection keyless_injection = Raise KeyError).
Proof.
  assert (Hv : get_correct_vial_for_date
                 (py_get keyless_injection "timestamp" (PStr ""))
               = Ok (Some "vial_20240805_1"))
    by (vm_compute; reflexivity).
  split; [exact Hv |].
  exact (planner_reads_keys_only_for_changes keyless_injection
           "vial_20240805_1" Hv).
Defined.

Lemma dry_stock_matched_by_substring_witness :
  In "vial_20241029_3" DRY_STOCK_VIALS /\
  mentions_dry_stock (PStr ("old_" ++ "vial_20241029_3" ++ "_copy")) = true /\
  needs_change (PStr ("old_" ++ "vial_20241029_3" ++ "_copy"))
               "vial_20251105_1" = true.
Proof.
  assert (Hin : In "vial_20241029_3" DRY_STOCK_VIALS)
    by (right; left; reflexivity).
  split; [exact Hin |].
  exact (dry_stock_matched_by_substring "vial_20241029_3" "old_" "_copy"
           "vial_20251105_1" Hin).
Defined.

Lemma apply_aborts_on_non_string_sort_key_witness :
  Forall (fun g => isinstance_str (ch_SK g) = true) demo_changes /\
  isinstance_str (ch_SK numeric_key_change) = false /\
  (apply_changes (demo_changes ++ [numeric_key_change]) 0 0
     (world_of demo_table never)).1 = Raise TypeError /\
  w_updates (apply_changes (demo_changes ++ [numeric_key_change]) 0 0
               (world_of demo_table never)).2 =
    (w_updates (world_of demo_table never)
       ++ requests_of (w_clock (world_of demo_table never))
            (length (w_updates (world_of demo_table never)))
            demo_changes)%list.
Proof.
  split; [exact demo_changes_sort_keys |]. split; [reflexivity |].
  exact (apply_aborts_on_non_string_sort_key demo_changes numeric_key_change
           [] (world_of demo_table never) demo_changes_sort_keys eq_refl).
Defined.

Lemma mixed_run_raises :
  (main true (world_of mixed_table never)).1 = Raise TypeError.
Proof. vm_compute. reflexivity. Qed.

Lemma aborted_run_writes_nothing_witness :
  (main true (world_of mixed_table never)).1 = Raise TypeError /\
  w_table (main true (world_of mixed_table never)).2
    = w_table (world_of mixed_table never) /\
  w_updates (main true (world_of mixed_table never)).2
    = w_updates (world_of mixed_table never).
Proof.
  split; [exact mixed_run_raises |].
  exact (aborted_run_writes_nothing true (world_of mixed_table never)
           TypeError mixed_run_raises).
Defined.

Lemma second_run_writes_nothing_witness :
  (forall m, w_update_fails (world_of demo_table never) m = false) /\
  main false (world_of demo_table never)
    = (Ok tt, (main false (world_of demo_table never)).2) /\
  w_table (main false (main false (world_of demo_table never)).2).2
    = w_table (main false (world_of demo_table never)).2 /\
  w_updates (main false (main false (world_of demo_table never)).2).2
    = w_updates (main false (world_of demo_table never)).2.
Proof.
  split; [reflexivity |]. split; [exact demo_live_run_returns |].
  exact (second_run_writes_nothing false (world_of demo_table never)
           (main false (world_of demo_table never)).2 (fun _ => eq_refl)
           demo_live_run_returns).
Defined.

Lemma load_returned {A W : Type} (dflt : A) (p : result A * W) :
  is_ok p.1 = true -> p = (Ok (returned dflt p.1), p.2).
Proof. destruct p as [[a | e] w]; [reflexivity | discriminate]. Qed.

Lemma head_and_tail {A : Type} (dflt : A) (l : list A) :
  Nat.ltb 0 (length l) = true -> l = hd dflt l :: tl l.
Proof. destruct l; [discriminate | reflexivity]. Qed.

Lemma mixed_table_loads :
  load_records (world_of mixed_table never)
    = (Ok mixed_injections, (load_records (world_of mixed_table never)).2).
Proof. apply load_returned. vm_compute. reflexivity. Qed.

Lemma mixed_table_plan :
  plan_changes mixed_injections
    = ((plan_changes mixed_injections).1,
       Ok (hd numeric_key_change mixed_changes :: tl mixed_changes)).
Proof.
  rewrite <- (head_and_tail numeric_key_change mixed_changes)
    by (vm_compute; reflexivity).
  apply plan_returned. vm_compute. reflexivity.
Qed.

Lemma undated_injection_aborts_run_witness :
  load_records (world_of mixed_table never)
    = (Ok mixed_injections, (load_records (world_of mixed_table never)).2) /\
  plan_changes mixed_injections
    = ((plan_changes mixed_injections).1,
       Ok (hd numeric_key_change mixed_changes :: tl mixed_changes)) /\
  In (nth 1 mixed_injections ∅) mixed_injections /\
  py_truthy (py_get (nth 1 mixed_injections ∅) "timestamp" (PStr ""))
    = false /\
  exists e,
    (main false (world_of mixed_table never)).1 = Raise e /\
    w_table (main false (world_of mixed_table never)).2
      = w_table (world_of mixed_table never) /\
    w_updates (main false (world_of mixed_table never)).2
      = w_updates (world_of mixed_table never).
Proof.
  assert (Hin : In (nth 1 mixed_injections ∅) mixed_injections)
    by (apply nth_In; apply Nat.ltb_lt; vm_compute; reflexivity).
  assert (Hfalsy :
            py_truthy (py_get (nth 1 mixed_injections ∅) "timestamp"
                              (PStr "")) = false)
    by (vm_compute; reflexivity).
  split; [exact mixed_table_loads |]. split; [exact mixed_table_plan |].
  split; [exact Hin |]. split; [exact Hfalsy |].
  exact (undated_injection_aborts_run false (world_of mixed_table never)
           (load_records (world_of mixed_table never)).2 mixed_injections
           (plan_changes mixed_injections).1
           (hd numeric_key_change mixed_changes) (tl mixed_changes)
           (nth 1 mixed_injections ∅)
           mixed_table_loads mixed_table_plan Hin Hfalsy).
Defined.

Lemma demo_expected_loop :
  expected_loop demo_injections [] = Ok demo_expected.
Proof. apply returned_ok. vm_compute. reflexivity. Qed.

Lemma expected_distribution_counts_witness :
  expected_loop demo_injections [] = Ok demo_expected /\
  (forall q, expected_count q demo_expected = policy_count q demo_injections) /\
  (forall q, In q (fst <$> demo_expected) ->
     q = None \/ exists v, q = Some v /\ In v policy_vials).
Proof.
  split; [exact demo_expected_loop |].
  exact (expected_distribution_counts demo_injections demo_expected
           demo_expected_loop).
Defined.
